(** * Credential cache of the Google API helpers

    Shallow embedding of [my_google_api_helpers.py] and [youtube_auth.py]:
    the identity normaliser, the token-file naming scheme and the two
    credential lifecycle functions [get_google_api_client] and
    [get_authenticated_youtube], followed by the properties of the
    specification that concern them. *)

From Stdlib Require Import ZArith Ascii String.
From stdpp Require Import base tactics option strings gmap.

Local Open Scope string_scope.

(** ** Python string primitives *)

Module PyStr.

(** [s.startswith(p)] *)
Fixpoint startswith (p s : string) : bool :=
  match p, s with
  | EmptyString, _ => true
  | String a p', String b s' => if Ascii.eqb a b then startswith p' s' else false
  | String _ _, EmptyString => false
  end.

(** [c in s] for a one-character [c]. *)
Fixpoint has_char (c : ascii) (s : string) : bool :=
  match s with
  | EmptyString => false
  | String a s' => if Ascii.eqb c a then true else has_char c s'
  end.

(** Left-to-right scan of [str.replace] for a non-empty pattern: at a
    match the replacement is emitted and the matched characters are
    skipped ([skip] counts the ones still to drop), so matches never
    overlap. *)
Fixpoint replace_scan (old new : string) (skip : nat) (s : string) : string :=
  match s with
  | EmptyString => EmptyString
  | String a s' =>
      match skip with
      | S k => replace_scan old new k s'
      | O =>
          if startswith old s
          then new +:+ replace_scan old new (String.length old - 1) s'
          else String a (replace_scan old new 0 s')
      end
  end.

(** With an empty pattern Python inserts the replacement before every
    character and at the end. *)
Fixpoint intersperse_all (new s : string) : string :=
  match s with
  | EmptyString => new
  | String a s' => new +:+ String a (intersperse_all new s')
  end.

(** [s.replace(old, new)] *)
Definition replace (old new s : string) : string :=
  match old with
  | EmptyString => intersperse_all new s
  | String _ _ => replace_scan old new 0 s
  end.

(** Character-wise substitution: what [replace] amounts to when the
    pattern is a single character. *)
Fixpoint subst_char (c : ascii) (new s : string) : string :=
  match s with
  | EmptyString => EmptyString
  | String a s' =>
      if Ascii.eqb c a then new +:+ subst_char c new s'
      else String a (subst_char c new s')
  end.

(** Python truthiness of a [str]. *)
Definition truthy (s : string) : bool :=
  match s with EmptyString => false | String _ _ => true end.

(** [x or d] for [x : Optional[str]] *)
Definition or_default (x : option string) (d : string) : string :=
  match x with
  | Some s => if truthy s then s else d
  | None => d
  end.

End PyStr.

(** ** The world the lifecycle functions run in *)

(** Exceptions that cross the modelled code. [LibraryError] stands for any
    exception raised inside the Google client libraries (malformed token
    file, refresh rejected, consent denied, ...). *)
Inductive Exn : Type :=
| FileNotFoundError (msg : string)
| FileExistsError (path : string)
| IsADirectoryError (path : string)
| ValueError (msg : string)
| LibraryError (msg : string).

Inductive Result (A : Type) : Type :=
| Ok (a : A)
| Raise (e : Exn).
Arguments Ok {A} a.
Arguments Raise {A} e.

(** The attributes of [google.oauth2.credentials.Credentials] that the
    source reads ([valid], [expired], [refresh_token]) together with the
    access token and the scopes the record carries. *)
Record Credentials : Type := mkCredentials {
  token : string;
  refresh_token : option string;
  scopes : list string;
  valid : bool;
  expired : bool
}.

(** [InstalledAppFlow] as created by [from_client_secrets_file]. *)
Record Flow : Type := mkFlow {
  flow_client_secrets : string;
  flow_scopes : list string
}.

(** The client handle returned by [googleapiclient.discovery.build]. *)
Record Service : Type := mkService {
  service_name : string;
  service_version : string;
  service_credentials : Credentials
}.

(** Loaded YAML scope table: api -> profile -> scopes. *)
Abbreviation ScopeConfig := (gmap string (gmap string (list string))).

(** *** File system *)

Record File : Type := mkFile {
  content : string;
  mode : Z
}.

Record FS : Type := mkFS {
  dirs : gset string;
  files : gmap string File;
  umask : Z
}.

Inductive LogLevel : Type := INFO | WARNING.

(** Everything a call does to the outside, in order. *)
Inductive Event : Type :=
| EvPrint (msg : string)
| EvLog (lvl : LogLevel) (msg : string)
| EvMkdir (path : string)
| EvLoad (path : string) (requested : list string)
| EvRefresh (c : Credentials)
| EvFlowInit (client_secrets : string) (requested : list string)
| EvConsent (console : bool) (f : Flow)
| EvOpenW (path : string)
| EvWrite (path : string) (data : string)
| EvChmod (path : string) (m : Z)
| EvBuild (api version : string) (c : Credentials).

(** [trace] lists the events oldest first; [history] lists the file-system
    state after each file-system call, oldest first: the states another
    process could observe while the call runs. *)
Record World : Type := mkWorld {
  fs : FS;
  trace : list Event;
  history : list FS
}.

(** *** State-and-exception monad *)

Definition M (A : Type) : Type := World → Result A * World.

#[global] Instance M_ret : MRet M := λ A a w, (Ok a, w).
#[global] Instance M_bind : MBind M := λ A B f m w,
  match m w with
  | (Ok a, w') => f a w'
  | (Raise e, w') => (Raise e, w')
  end.

#[global] Instance M_fmap : FMap M := λ A B f m w,
  match m w with
  | (Ok a, w') => (Ok (f a), w')
  | (Raise e, w') => (Raise e, w')
  end.

Definition raise {A : Type} (e : Exn) : M A := λ w, (Raise e, w).

(** [try: m except Exception as e: h e] *)
Definition try_except {A : Type} (m : M A) (h : Exn → M A) : M A := λ w,
  match m w with
  | (Ok a, w') => (Ok a, w')
  | (Raise e, w') => h e w'
  end.

Definition lift_result {A : Type} (r : Result A) : M A := λ w, (r, w).

Definition emit (e : Event) : M unit := λ w,
  (Ok tt, mkWorld (fs w) (trace w ++ [e]) (history w)).

Definition get_fs : M FS := λ w, (Ok (fs w), w).

Definition set_fs (new_fs : FS) : M unit := λ w,
  (Ok tt, mkWorld new_fs (trace w) (history w ++ [new_fs])).

(** *** Paths and file-system calls *)

Module Posix.

Definition slash : ascii := "/"%char.

(** Text before the last separator. *)
Fixpoint before_last_slash (p : string) : string :=
  match p with
  | EmptyString => EmptyString
  | String a p' =>
      if PyStr.has_char slash p' then String a (before_last_slash p') else EmptyString
  end.

(** [os.path.dirname] *)
Definition dirname (p : string) : string :=
  match before_last_slash p with
  | EmptyString => if PyStr.startswith "/" p then "/" else EmptyString
  | d => d
  end.

(** [os.path.join(a, b)] for a non-empty [a] without a trailing
    separator: an absolute second part replaces the first. Redundant
    separators and dot segments are kept as written. *)
Definition join (a b : string) : string :=
  if PyStr.startswith "/" b then b else a +:+ "/" +:+ b.

(** [p.split("/")] *)
Fixpoint split_slash (p : string) : list string :=
  match p with
  | EmptyString => [EmptyString]
  | String a p' =>
      if Ascii.eqb slash a then EmptyString :: split_slash p'
      else match split_slash p' with
           | h :: t => String a h :: t
           | [] => [String a EmptyString]
           end
  end.

(** The parts pathlib keeps of a path: neither empty nor [.]. *)
Definition segments (p : string) : list string :=
  List.filter (λ x, negb (String.eqb x EmptyString) && negb (String.eqb x "."))
    (split_slash p).

(** ["/".join(parts)] *)
Fixpoint join_segments (l : list string) : string :=
  match l with
  | [] => EmptyString
  | [x] => x
  | x :: l' => x +:+ "/" +:+ join_segments l'
  end.

(** Root of an absolute path: exactly two leading separators are kept,
    any other number is one. *)
Definition root_of (p : string) : string :=
  if PyStr.startswith "//" p && negb (PyStr.startswith "///" p) then "//" else "/".

(** [str(Path(a) / b)]: pathlib drops empty and [.] parts, keeps [..], and
    lets an absolute second part replace the first. *)
Definition pathlib_div (a b : string) : string :=
  if PyStr.startswith "/" b then root_of b +:+ join_segments (segments b)
  else if PyStr.startswith "/" a
       then root_of a +:+ join_segments (segments a ++ segments b)%list
       else match (segments a ++ segments b)%list with
            | [] => "."
            | l => join_segments l
            end.

Definition is_dir (s : FS) (p : string) : bool := bool_decide (p ∈ dirs s).

Definition is_file (s : FS) (p : string) : bool :=
  match files s !! p with Some _ => true | None => false end.

(** [os.path.exists] *)
Definition exists_ (s : FS) (p : string) : bool := is_dir s p || is_file s p.

(** [Path(p).exists()]: the empty path is the current directory. *)
Definition path_exists (s : FS) (p : string) : bool :=
  match p with EmptyString => true | _ => exists_ s p end.

(** The current directory (empty dirname) always exists. *)
Definition parent_exists (s : FS) (p : string) : bool :=
  match dirname p with EmptyString => true | d => is_dir s d end.

(** Mode of a file created by [open(p, "w")]: 0o666 minus the umask. *)
Definition creation_mode (s : FS) : Z := Z.ldiff 438 (umask s).

(** [os.makedirs(p, exist_ok=True)] and [Path(p).mkdir(exist_ok=True)]
    for a directory of the current directory. *)
Definition mkdir_exist_ok (p : string) : M unit :=
  emit (EvMkdir p);;
  s ← get_fs;
  if is_dir s p then set_fs s
  else if is_file s p then raise (FileExistsError p)
  else if parent_exists s p then set_fs (mkFS ({[p]} ∪ dirs s) (files s) (umask s))
  else raise (FileNotFoundError p).

(** [open(p, "w")]: creates the file or truncates it, keeping the mode of
    an existing file. *)
Definition open_w (p : string) : M unit :=
  emit (EvOpenW p);;
  s ← get_fs;
  if is_dir s p then raise (IsADirectoryError p)
  else if parent_exists s p then
    let m := match files s !! p with Some f => mode f | None => creation_mode s end in
    set_fs (mkFS (dirs s) (<[p := mkFile EmptyString m]> (files s)) (umask s))
  else raise (FileNotFoundError p).

(** [f.write(data)] on the file opened at [p]. *)
Definition write (p data : string) : M unit :=
  emit (EvWrite p data);;
  s ← get_fs;
  match files s !! p with
  | Some f => set_fs (mkFS (dirs s) (<[p := mkFile (content f +:+ data) (mode f)]> (files s)) (umask s))
  | None => raise (FileNotFoundError p)
  end.

(** [os.chmod(p, m)] *)
Definition chmod (p : string) (m : Z) : M unit :=
  emit (EvChmod p m);;
  s ← get_fs;
  match files s !! p with
  | Some f => set_fs (mkFS (dirs s) (<[p := mkFile (content f) m]> (files s)) (umask s))
  | None => raise (FileNotFoundError p)
  end.

End Posix.

(** *** External collaborators

    The Google client libraries, the YAML loader and the process
    environment. The lifecycle functions are written against this
    interface; what the libraries compute is not part of the repository. *)
Class Collaborators : Type := {
  (** [yaml.safe_load(open(path))] *)
  yaml_safe_load : string → Result ScopeConfig;
  (** [os.getenv(name)] *)
  getenv : string → option string;
  (** [Credentials.from_authorized_user_file], as a function of the file's
      content and the requested scopes *)
  from_authorized_user_info : string → list string → Result Credentials;
  (** [creds.to_json()] *)
  to_json : Credentials → string;
  (** [creds.refresh(Request())]: the record after the refresh *)
  refresh : Credentials → Result Credentials;
  (** [InstalledAppFlow.from_client_secrets_file] *)
  from_client_secrets_file : string → list string → Result Flow;
  (** [flow.run_local_server(port=0)] *)
  run_local_server : Flow → Result Credentials;
  (** [flow.run_console()] *)
  run_console : Flow → Result Credentials;
  (** [build(api, version, credentials=creds)] *)
  build : string → string → Credentials → Result Service
}.

(** Truthiness of [creds.refresh_token]. *)
Definition has_refresh_token (c : Credentials) : bool :=
  match refresh_token c with
  | Some t => PyStr.truthy t
  | None => false
  end.

(** [not creds or not creds.valid] *)
Definition not_usable (creds : option Credentials) : bool :=
  match creds with
  | Some c => negb (valid c)
  | None => true
  end.

(** [creds and creds.expired and creds.refresh_token] *)
Definition wants_refresh (creds : option Credentials) : bool :=
  match creds with
  | Some c => expired c && has_refresh_token c
  | None => false
  end.

(** ** my_google_api_helpers.py *)

Module GoogleApiHelpers.

Definition CONFIG_SCOPE_PATH : string := "config/google_api_scopes.yaml".
Definition DEFAULT_TOKEN_DIR : string := "tokens".

Definition normalize_account_id (account_email : string) : string :=
  PyStr.replace "." "_dot_" (PyStr.replace "@" "_at_" account_email).

(** The f-string [f"{norm}__{api_name}__{scope_profile}"]: the cache key,
    the token file's name without its extension. *)
Definition cache_key (account_email api_name scope_profile : string) : string :=
  normalize_account_id account_email +:+ "__" +:+ api_name +:+ "__" +:+ scope_profile.

(** [token_dir / f"{norm}__{api_name}__{scope_profile}.json"] *)
Definition token_file (account_email api_name scope_profile : string) : string :=
  Posix.pathlib_div DEFAULT_TOKEN_DIR
    (cache_key account_email api_name scope_profile +:+ ".json").

(** [scope_config[api][profile]], a [KeyError] turned into [ValueError]. *)
Definition get_scopes_for (api profile : string) (scope_config : ScopeConfig)
  : M (list string) :=
  match scope_config !! api with
  | Some profiles =>
      match profiles !! profile with
      | Some scopes => mret scopes
      | None => raise (ValueError "Scope profile not defined for API")
      end
  | None => raise (ValueError "Scope profile not defined for API")
  end.

Section Lifecycle.
Context `{Collaborators}.

Definition load_scope_profiles (yaml_path : string) : M ScopeConfig :=
  lift_result (yaml_safe_load yaml_path).

(** [Credentials.from_authorized_user_file(token_file, scopes)] *)
Definition load_token (path : string) (requested : list string) : M Credentials :=
  emit (EvLoad path requested);;
  s ← get_fs;
  match files s !! path with
  | Some f => lift_result (from_authorized_user_info (content f) requested)
  | None => raise (FileNotFoundError path)
  end.

(** The [else] branch of lines 103-111: resolve the client secret, check
    that it exists, run the consent flow. *)
Definition consent_branch (client_secret_file : option string)
    (requested : list string) : M Credentials :=
  let client_secret_file :=
    match client_secret_file with
    | Some p => if PyStr.truthy p then p
                else default "secret/client_secret.json" (getenv "GOOGLE_CLIENT_SECRET")
    | None => default "secret/client_secret.json" (getenv "GOOGLE_CLIENT_SECRET")
    end in
  s ← get_fs;
  if negb (Posix.path_exists s client_secret_file)
  then raise (FileNotFoundError "Missing client_secret.json")
  else
    emit (EvLog INFO "Starting OAuth flow");;
    emit (EvFlowInit client_secret_file requested);;
    flow ← lift_result (from_client_secrets_file client_secret_file requested);
    emit (EvConsent false flow);;
    lift_result (run_local_server flow).

(** Lines 113-116: [with open(token_file, "w") as token: token.write(...)]. *)
Definition save_token (path : string) (creds : Credentials) : M unit :=
  Posix.open_w path;;
  Posix.write path (to_json creds);;
  emit (EvLog INFO "Token saved").

(** Lines 77-118. Log texts are shortened to their fixed part. The last
    [None] branch cannot be reached: after line 111 [creds] is always a
    credentials object. *)
Definition get_google_api_client (api_name scope_profile account_email : string)
    (client_secret_file : option string) (scopes_config_path : string) : M Service :=
  scopes_config ← load_scope_profiles scopes_config_path;
  requested ← get_scopes_for api_name scope_profile scopes_config;
  Posix.mkdir_exist_ok DEFAULT_TOKEN_DIR;;
  let token_file := token_file account_email api_name scope_profile in
  s ← get_fs;
  creds ← (if Posix.path_exists s token_file
           then Some <$> load_token token_file requested
           else mret None);
  creds ← (if not_usable creds then
             creds ← (match creds with
                      | Some c =>
                          if wants_refresh creds then
                            emit (EvRefresh c);;
                            c' ← lift_result (refresh c);
                            emit (EvLog INFO "Refreshed token");;
                            mret c'
                          else consent_branch client_secret_file requested
                      | None => consent_branch client_secret_file requested
                      end);
             save_token token_file creds;;
             mret (Some creds)
           else mret creds);
  match creds with
  | Some c =>
      emit (EvBuild api_name "v3" c);;
      lift_result (build api_name "v3" c)
  | None => raise (ValueError "unreachable: no credentials")
  end.

End Lifecycle.

End GoogleApiHelpers.

(** ** youtube_auth.py *)

Module YoutubeAuth.

Definition SCOPES : list string := ["https://www.googleapis.com/auth/youtube.readonly"].

Definition normalize_account_id (account : string) : string :=
  PyStr.replace "." "_dot_" (PyStr.replace "@" "_at_" account).

(** [os.path.join("tokens", f"{norm}.json")] *)
Definition token_file (account : string) : string :=
  Posix.join "tokens" (normalize_account_id account +:+ ".json").

Section Lifecycle.
Context `{Collaborators}.

(** Module constant, read from the environment at import. *)
Definition DEFAULT_CLIENT_SECRET_FILE : string :=
  default "client_secret.json" (getenv "YTCLI_CLIENT_SECRET").

Definition load_token (path : string) (requested : list string) : M Credentials :=
  emit (EvLoad path requested);;
  s ← get_fs;
  match files s !! path with
  | Some f => lift_result (from_authorized_user_info (content f) requested)
  | None => raise (FileNotFoundError path)
  end.

(** Lines 53-55: the consent flow, interactive or on the console. *)
Definition consent_flow (client_secret_file : string) (requested : list string)
    (headless : bool) : M Credentials :=
  emit (EvLog INFO "Starting OAuth flow");;
  emit (EvFlowInit client_secret_file requested);;
  flow ← lift_result (from_client_secrets_file client_secret_file requested);
  emit (EvConsent headless flow);;
  lift_result (if headless then run_console flow else run_local_server flow).

(** Lines 19-61. As above, the last [None] branch cannot be reached. *)
Definition get_authenticated_youtube (account : string)
    (scopes : option (list string)) (client_secret_file : option string)
    (headless : bool) : M Service :=
  let requested :=
    match scopes with
    | Some (x :: l) => x :: l
    | _ => SCOPES
    end in
  let client_secret_file := PyStr.or_default client_secret_file DEFAULT_CLIENT_SECRET_FILE in
  emit (EvPrint client_secret_file);;
  s ← get_fs;
  if negb (Posix.exists_ s client_secret_file)
  then raise (FileNotFoundError "Missing client_secret.json")
  else
    Posix.mkdir_exist_ok "tokens";;
    let token_file := token_file account in
    s ← get_fs;
    creds ← (if Posix.exists_ s token_file
             then try_except (Some <$> load_token token_file requested)
                    (λ e, emit (EvLog WARNING "Failed to load credentials");; mret None)
             else mret None);
    creds ← (if not_usable creds then
               creds ← (match creds with
                        | Some c =>
                            if wants_refresh creds then
                              try_except
                                (emit (EvRefresh c);;
                                 c' ← lift_result (refresh c);
                                 emit (EvLog INFO "Refreshed token");;
                                 mret (Some c'))
                                (λ e, emit (EvLog WARNING "Token refresh failed");; mret None)
                            else mret creds
                        | None => mret creds
                        end);
               creds ← (match creds with
                        | Some c =>
                            if valid c then mret c
                            else consent_flow client_secret_file requested headless
                        | None => consent_flow client_secret_file requested headless
                        end);
               Posix.open_w token_file;;
               Posix.write token_file (to_json creds);;
               Posix.chmod token_file 384;;
               mret (Some creds)
             else mret creds);
    match creds with
    | Some c =>
        emit (EvBuild "youtube" "v3" c);;
        lift_result (build "youtube" "v3" c)
    | None => raise (ValueError "unreachable: no credentials")
    end.

End Lifecycle.

End YoutubeAuth.

(** ** Runs and observations *)

(** A call starts with nothing done yet. *)
Definition initial (s : FS) : World := mkWorld s [] [].

Definition run {A : Type} (m : M A) (s : FS) : Result A * World := m (initial s).

(** Store writes. *)
Definition is_write (e : Event) : bool :=
  match e with
  | EvOpenW _ | EvWrite _ _ | EvChmod _ _ => true
  | _ => false
  end.

(** Refresh network calls. *)
Definition is_refresh (e : Event) : bool :=
  match e with
  | EvRefresh _ => true
  | _ => false
  end.

(** Consent-flow launches. *)
Definition is_consent (e : Event) : bool :=
  match e with
  | EvFlowInit _ _ | EvConsent _ _ => true
  | _ => false
  end.

(** Neither a store write, nor a refresh, nor a consent flow. *)
Definition quiet (e : Event) : bool :=
  negb (is_write e || is_refresh e || is_consent e).

(** [requested] is covered by [granted]. *)
Definition covers (granted requested : list string) : bool :=
  forallb (λ r, bool_decide (r ∈ granted)) requested.

(** The specification's notion of a valid record: a non-expired access
    token whose granted scopes are a superset of the requested scopes. *)
Definition spec_valid (c : Credentials) (requested : list string) : bool :=
  negb (expired c) && covers (scopes c) requested.

(** A name without an underscore and without a path separator. *)
Definition plain (s : string) : bool :=
  negb (PyStr.has_char "_" s) && negb (PyStr.has_char "/" s).

(** Weakest precondition of a computation: the postcondition holds of the
    result and the world it ends in. *)
Definition wp {A : Type} (m : M A) (Q : Result A → World → Prop) (w : World) : Prop :=
  Q (m w).1 (m w).2.

Definition content_at (s : FS) (p : string) : option string :=
  content <$> files s !! p.

Definition mode_at (s : FS) (p : string) : option Z :=
  mode <$> files s !! p.

(** ** Stand-in collaborators for concrete scenarios

    A deterministic replacement for the Google libraries, in the manner of
    the mocked collaborators of a unit test: token files use a small
    line format, every refresh is rejected by the provider, and every
    consent flow issues the same fresh token for the scopes it was asked
    for. *)

Module Demo.

Fixpoint split_on (sep : ascii) (s : string) : list string :=
  match s with
  | EmptyString => [EmptyString]
  | String a s' =>
      if Ascii.eqb a sep then EmptyString :: split_on sep s'
      else match split_on sep s' with
           | h :: t => String a h :: t
           | [] => [String a EmptyString]
           end
  end.

Fixpoint join_with (sep : string) (l : list string) : string :=
  match l with
  | [] => EmptyString
  | [x] => x
  | x :: l' => x +:+ sep +:+ join_with sep l'
  end.

Definition flag (b : bool) : string := if b then "1" else "0".

Definition unflag (s : string) : option bool :=
  if String.eqb s "1" then Some true
  else if String.eqb s "0" then Some false else None.

(** token|refresh_token|valid|expired|scope scope ... *)
Definition demo_to_json (c : Credentials) : string :=
  join_with "|" [token c; default EmptyString (refresh_token c); flag (valid c);
                 flag (expired c); join_with " " (scopes c)].

Definition demo_from_authorized_user_info (text : string) (requested : list string)
  : Result Credentials :=
  match split_on "|" text with
  | [tok; rt; v; x; sc] =>
      match unflag v, unflag x with
      | Some v, Some x =>
          Ok (mkCredentials tok (if PyStr.truthy rt then Some rt else None)
                (if PyStr.truthy sc then split_on " " sc else []) v x)
      | _, _ => Raise (ValueError "malformed token file")
      end
  | _ => Raise (ValueError "malformed token file")
  end.

Definition gmail_send : string := "https://www.googleapis.com/auth/gmail.send".
Definition youtube_readonly : string := "https://www.googleapis.com/auth/youtube.readonly".
Definition youtube_force_ssl : string := "https://www.googleapis.com/auth/youtube.force-ssl".

Definition demo_scopes : ScopeConfig :=
  {[ "gmail" := {[ "send" := [gmail_send] ]};
     "youtube" := {[ "read" := [youtube_readonly]; "write" := [youtube_force_ssl] ]} ]}.

Definition issued (requested : list string) : Credentials :=
  mkCredentials "ya29.new" (Some "1//0g-new") requested true false.

#[export] Instance demo : Collaborators := {|
  yaml_safe_load _ := Ok demo_scopes;
  getenv _ := None;
  from_authorized_user_info := demo_from_authorized_user_info;
  to_json := demo_to_json;
  refresh _ := Raise (LibraryError "invalid_grant");
  from_client_secrets_file path requested := Ok (mkFlow path requested);
  run_local_server f := Ok (issued (flow_scopes f));
  run_console f := Ok (issued (flow_scopes f));
  build api version c := Ok (mkService api version c)
|}.

(** An expired record that still carries a refresh token. *)
Definition expired_record : Credentials :=
  mkCredentials "ya29.old" (Some "1//0g-old") [gmail_send] false true.

(** An expired record without a refresh token. *)
Definition dead_record : Credentials :=
  mkCredentials "ya29.old" None [gmail_send] false true.

(** A live record granted the read-only YouTube scope. *)
Definition readonly_record : Credentials :=
  mkCredentials "ya29.ro" (Some "1//0g-ro") [youtube_readonly] true false.

(** umask 0o022, the client secret in place, no token directory yet. *)
Definition fresh_fs : FS :=
  mkFS {["secret"]}
       {[ "secret/client_secret.json" := mkFile "{installed}" 384;
          "client_secret.json" := mkFile "{installed}" 384 ]}
       18.

(** Like [fresh_fs], with one token file already in the cache. *)
Definition fs_with_token (path text : string) : FS :=
  mkFS ({["tokens"]} ∪ dirs fresh_fs)
       (<[path := mkFile text 420]> (files fresh_fs))
       18.

(** Neither token directory nor client secret. *)
Definition bare_fs : FS := mkFS ∅ ∅ 18.

End Demo.

(** ** Further observations *)

(** [s.count(c)] for a one-character [c]. *)
Fixpoint count_char (c : ascii) (s : string) : nat :=
  match s with
  | EmptyString => 0
  | String a s' => (if Ascii.eqb c a then 1 else 0) + count_char c s'
  end.

(** [EvConsent]: the interactive consent step itself. *)
Definition is_consent_run (e : Event) : bool :=
  match e with
  | EvConsent _ _ => true
  | _ => false
  end.

(** [EvWrite]: a record written to a token file. *)
Definition is_save (e : Event) : bool :=
  match e with
  | EvWrite _ _ => true
  | _ => false
  end.

Definition count_events (f : Event → bool) (l : list Event) : nat :=
  length (List.filter f l).

(** The client secret path of [get_google_api_client], line 105:
    [client_secret_file or os.getenv("GOOGLE_CLIENT_SECRET", default)]. *)
Definition resolved_client_secret `{Collaborators} (client_secret_file : option string)
  : string :=
  PyStr.or_default client_secret_file
    (default "secret/client_secret.json" (getenv "GOOGLE_CLIENT_SECRET")).

(** The scopes [get_authenticated_youtube] works with, line 23:
    [scopes or SCOPES]. *)
Definition youtube_requested (scopes : option (list string)) : list string :=
  match scopes with
  | Some (x :: l) => x :: l
  | _ => YoutubeAuth.SCOPES
  end.

(** ** Stand-in collaborators whose refresh succeeds *)

Module DemoRefresh.

(** The record a successful refresh returns: a new access token, valid. *)
Definition renewed (c : Credentials) : Credentials :=
  mkCredentials "ya29.renewed" (refresh_token c) (scopes c) true false.

(** A refreshed record the library still reports invalid. *)
Definition still_stale (c : Credentials) : Credentials :=
  mkCredentials "ya29.renewed" (refresh_token c) (scopes c) false true.

(** Like [Demo.demo], but the provider accepts every refresh. *)
Definition refreshing : Collaborators := {|
  yaml_safe_load _ := Ok Demo.demo_scopes;
  getenv _ := None;
  from_authorized_user_info := Demo.demo_from_authorized_user_info;
  to_json := Demo.demo_to_json;
  refresh c := Ok (renewed c);
  from_client_secrets_file path requested := Ok (mkFlow path requested);
  run_local_server f := Ok (Demo.issued (flow_scopes f));
  run_console f := Ok (Demo.issued (flow_scopes f));
  build api version c := Ok (mkService api version c)
|}.

(** Like [refreshing], but the refreshed record is not valid. *)
Definition stale_refreshing : Collaborators := {|
  yaml_safe_load _ := Ok Demo.demo_scopes;
  getenv _ := None;
  from_authorized_user_info := Demo.demo_from_authorized_user_info;
  to_json := Demo.demo_to_json;
  refresh c := Ok (still_stale c);
  from_client_secrets_file path requested := Ok (mkFlow path requested);
  run_local_server f := Ok (Demo.issued (flow_scopes f));
  run_console f := Ok (Demo.issued (flow_scopes f));
  build api version c := Ok (mkService api version c)
|}.

(** The profiles of the gmail api in [Demo.demo_scopes]. *)
Definition gmail_profiles : gmap string (list string) :=
  {[ "send" := [Demo.gmail_send] ]}.

End DemoRefresh.

(** * Properties *)

(** ** Strings *)

Section StringFacts.

Lemma append_nil_l (s : string) : EmptyString +:+ s = s.
Proof. reflexivity. Qed.

Lemma append_cons (a : ascii) (s1 s2 : string) :
  String a s1 +:+ s2 = String a (s1 +:+ s2).
Proof. reflexivity. Qed.

Lemma append_assoc (s1 s2 s3 : string) : (s1 +:+ s2) +:+ s3 = s1 +:+ s2 +:+ s3.
Proof. induction s1 as [|a s1 IH]; [done|]. by rewrite !append_cons, IH. Qed.

Lemma has_char_append (c : ascii) (s1 s2 : string) :
  PyStr.has_char c (s1 +:+ s2) = PyStr.has_char c s1 || PyStr.has_char c s2.
Proof.
  induction s1 as [|a s1 IH]; [done|]. rewrite append_cons. cbn.
  destruct (Ascii.eqb c a); [done|]. apply IH.
Qed.

(** A one-character pattern makes [str.replace] a character-wise
    substitution. *)
Lemma replace_single_char (c : ascii) (new s : string) :
  PyStr.replace (String c EmptyString) new s = PyStr.subst_char c new s.
Proof.
  unfold PyStr.replace.
  induction s as [|a s IH]; [done|]. cbn.
  destruct (Ascii.eqb c a); by rewrite IH.
Qed.

Lemma subst_char_removes (c : ascii) (new s : string) :
  PyStr.has_char c new = false →
  PyStr.has_char c (PyStr.subst_char c new s) = false.
Proof.
  intros Hnew. induction s as [|a s IH]; [done|]. cbn.
  destruct (Ascii.eqb c a) eqn:E.
  - by rewrite has_char_append, Hnew, IH.
  - cbn. by rewrite E.
Qed.

Lemma subst_char_keeps_absent (d c : ascii) (new s : string) :
  PyStr.has_char d new = false →
  PyStr.has_char d s = false →
  PyStr.has_char d (PyStr.subst_char c new s) = false.
Proof.
  intros Hnew. induction s as [|a s IH]; [done|]. cbn.
  destruct (Ascii.eqb d a) eqn:E; [done|]. intros Hs.
  destruct (Ascii.eqb c a).
  - by rewrite has_char_append, Hnew, IH.
  - cbn. rewrite E. by apply IH.
Qed.

(** Splitting at the last occurrence of a character is unambiguous. *)
Lemma split_last_char (c : ascii) (l1 l2 r1 r2 : string) :
  PyStr.has_char c r1 = false →
  PyStr.has_char c r2 = false →
  l1 +:+ String c r1 = l2 +:+ String c r2 →
  l1 = l2 ∧ r1 = r2.
Proof.
  intros H1 H2. revert l2.
  induction l1 as [|a l1 IH]; intros [|b l2] Heq;
    rewrite ?append_nil_l, ?append_cons in Heq.
  - by simplify_eq.
  - injection Heq as -> ->.
    rewrite has_char_append in H1. cbn in H1.
    rewrite Ascii.eqb_refl, orb_true_r in H1. done.
  - injection Heq as -> <-.
    rewrite has_char_append in H2. cbn in H2.
    rewrite Ascii.eqb_refl, orb_true_r in H2. done.
  - injection Heq as -> Heq. destruct (IH _ Heq) as [-> ->]. done.
Qed.

End StringFacts.

(** ** Identity normaliser and cache key *)

Section Naming.
Import GoogleApiHelpers.

Example normalize_email :
  normalize_account_id "lgtkgtv@gmail.com" = "lgtkgtv_at_gmail_dot_com".
Proof. reflexivity. Qed.

Example normalize_spec_example :
  normalize_account_id "a@b.com" = "a_at_b_dot_com".
Proof. reflexivity. Qed.

Example cache_key_gmail_send :
  cache_key "user@x.com" "gmail" "send" = "user_at_x_dot_com__gmail__send".
Proof. reflexivity. Qed.

Example token_file_gmail_send :
  token_file "lgtkgtv@gmail.com" "gmail" "send"
  = "tokens/lgtkgtv_at_gmail_dot_com__gmail__send.json".
Proof. reflexivity. Qed.

Lemma normalize_as_subst (s : string) :
  normalize_account_id s
  = PyStr.subst_char "." "_dot_" (PyStr.subst_char "@" "_at_" s).
Proof. unfold normalize_account_id. by rewrite !replace_single_char. Qed.

(** The normaliser works character by character. *)
Lemma normalize_cons (a : ascii) (s : string) :
  normalize_account_id (String a s)
  = (if Ascii.eqb "@" a then "_at_"
     else if Ascii.eqb "." a then "_dot_" else String a EmptyString)
    +:+ normalize_account_id s.
Proof.
  rewrite !normalize_as_subst. cbn [PyStr.subst_char].
  destruct (Ascii.eqb "@" a); [reflexivity|].
  cbn [PyStr.subst_char]. by destruct (Ascii.eqb "." a).
Qed.

Lemma normalize_nil : normalize_account_id EmptyString = EmptyString.
Proof. reflexivity. Qed.

(** On identities without an underscore the normaliser can be decoded. *)
Lemma normalize_inj_underscore_free (s1 s2 : string) :
  PyStr.has_char "_" s1 = false →
  PyStr.has_char "_" s2 = false →
  normalize_account_id s1 = normalize_account_id s2 →
  s1 = s2.
Proof.
  revert s2. induction s1 as [|a s1 IH]; intros [|b s2] H1 H2.
  - done.
  - rewrite normalize_nil, normalize_cons.
    destruct (Ascii.eqb "@" b); [done|]. by destruct (Ascii.eqb "." b).
  - rewrite normalize_nil, normalize_cons.
    destruct (Ascii.eqb "@" a); [done|]. by destruct (Ascii.eqb "." a).
  - cbn [PyStr.has_char] in H1, H2.
    destruct (Ascii.eqb "_" a) eqn:Ua; [done|].
    destruct (Ascii.eqb "_" b) eqn:Ub; [done|].
    rewrite !normalize_cons.
    destruct (Ascii.eqb "@" a) eqn:Aa, (Ascii.eqb "@" b) eqn:Ab;
      [| destruct (Ascii.eqb "." b) eqn:Db
       | destruct (Ascii.eqb "." a) eqn:Da
       | destruct (Ascii.eqb "." a) eqn:Da, (Ascii.eqb "." b) eqn:Db];
      rewrite ?append_cons, ?append_nil_l; intros Heq; simplify_eq;
      repeat match goal with
             | E : Ascii.eqb _ _ = true |- _ => apply Ascii.eqb_eq in E; subst
             | E : Ascii.eqb ?x ?x = false |- _ => by rewrite Ascii.eqb_refl in E
             end;
      try done; f_equal; eauto.
Qed.

Lemma cache_key_shape (i a p : string) :
  cache_key i a p
  = (((normalize_account_id i +:+ "_") +:+ String "_" a) +:+ "_") +:+ String "_" p.
Proof. unfold cache_key. by rewrite !append_assoc. Qed.

(** With api and profile free of underscores, the key determines the
    normalised identity, the api and the profile. *)
Lemma cache_key_parts (i1 a1 p1 i2 a2 p2 : string) :
  PyStr.has_char "_" a1 = false → PyStr.has_char "_" p1 = false →
  PyStr.has_char "_" a2 = false → PyStr.has_char "_" p2 = false →
  cache_key i1 a1 p1 = cache_key i2 a2 p2 →
  normalize_account_id i1 = normalize_account_id i2 ∧ a1 = a2 ∧ p1 = p2.
Proof.
  intros Ha1 Hp1 Ha2 Hp2. rewrite !cache_key_shape. intros Heq.
  apply split_last_char in Heq as [Heq ->]; [|done..].
  apply (split_last_char _ _ _ EmptyString EmptyString) in Heq as [Heq _]; [|done..].
  apply split_last_char in Heq as [Heq ->]; [|done..].
  apply (split_last_char _ _ _ EmptyString EmptyString) in Heq as [Heq _]; [|done..].
  done.
Qed.

(** C2 (as stated, refuted): two distinct triples with the same cache key.
    The identity [user_at_x.com] already spells out the replacement text
    of [@], so it normalises to the same name as [user@x.com]. *)
Lemma cache_key_collision :
  ("user@x.com", "gmail", "send") ≠ ("user_at_x.com", "gmail", "send")
  ∧ cache_key "user@x.com" "gmail" "send" = cache_key "user_at_x.com" "gmail" "send".
Proof. split; [congruence|reflexivity]. Qed.

(** The separator also occurs in api and profile names, which are embedded
    verbatim. *)
Example cache_key_collision_separator :
  cache_key "a" "b__c" "d" = cache_key "a" "b" "c__d".
Proof. reflexivity. Qed.

(** The separator is not excluded from normalised identities. *)
Example normalize_keeps_separator :
  normalize_account_id "a__b" = "a__b".
Proof. reflexivity. Qed.

Lemma cache_key_injective_underscore_free_aux (i1 a1 p1 i2 a2 p2 : string) :
  PyStr.has_char "_" i1 = false →
  PyStr.has_char "_" a1 = false →
  PyStr.has_char "_" p1 = false →
  PyStr.has_char "_" i2 = false →
  PyStr.has_char "_" a2 = false →
  PyStr.has_char "_" p2 = false →
  (i1, a1, p1) ≠ (i2, a2, p2) →
  cache_key i1 a1 p1 ≠ cache_key i2 a2 p2.
Proof.
  intros Hi1 Ha1 Hp1 Hi2 Ha2 Hp2 Hne Heq. apply Hne.
  apply cache_key_parts in Heq as (Hn & -> & ->); [|done..].
  apply normalize_inj_underscore_free in Hn as ->; done.
Qed.

(** C2 (amended): on triples whose identity, api and profile contain no
    underscore, the cache-key function
    [normalize(identity) + "__" + api + "__" + profile] is injective:
    distinct triples have distinct keys. *)
Theorem cache_key_injective_underscore_free (i1 a1 p1 i2 a2 p2 : string) :
  PyStr.has_char "_" i1 = false →
  PyStr.has_char "_" a1 = false →
  PyStr.has_char "_" p1 = false →
  PyStr.has_char "_" i2 = false →
  PyStr.has_char "_" a2 = false →
  PyStr.has_char "_" p2 = false →
  (i1, a1, p1) ≠ (i2, a2, p2) →
  cache_key i1 a1 p1 ≠ cache_key i2 a2 p2.
Proof. apply cache_key_injective_underscore_free_aux. Qed.





(** C10: the normaliser of my_google_api_helpers.py and the normaliser of
    youtube_auth.py return the same output for every input string. *)
Theorem normalize_account_id_agree (s : string) :
  GoogleApiHelpers.normalize_account_id s = YoutubeAuth.normalize_account_id s.
Proof. reflexivity. Qed.

(** Token files are named one-to-one after cache keys. *)
Lemma join_tokens_inj (b1 b2 : string) :
  Posix.join "tokens" b1 = Posix.join "tokens" b2 → b1 = b2.
Proof.
  unfold Posix.join.
  destruct (PyStr.startswith "/" b1) eqn:E1, (PyStr.startswith "/" b2) eqn:E2;
    intros Heq.
  - done.
  - subst b1. by cbv in E1.
  - subst b2. by cbv in E2.
  - by do 2 apply (inj (String.app _)) in Heq.
Qed.

Example pathlib_div_examples :
  Posix.pathlib_div "tokens" "a//b__gmail__send.json" = "tokens/a/b__gmail__send.json"
  ∧ Posix.pathlib_div "tokens" "a/./b.json" = "tokens/a/b.json"
  ∧ Posix.pathlib_div "tokens" "a/../b.json" = "tokens/a/../b.json"
  ∧ Posix.pathlib_div "tokens" "/etc/x.json" = "/etc/x.json"
  ∧ Posix.pathlib_div "tokens" "//etc//x.json" = "//etc/x.json"
  ∧ Posix.pathlib_div "tokens" "///etc/x.json" = "/etc/x.json"
  ∧ Posix.pathlib_div "tokens" "x.json" = "tokens/x.json".
Proof. by split_and!. Qed.

Lemma split_slash_no_slash (s : string) :
  PyStr.has_char "/" s = false → Posix.split_slash s = [s].
Proof.
  induction s as [|a s IH]; [done|]. cbn [Posix.split_slash PyStr.has_char].
  unfold Posix.slash. destruct (Ascii.eqb "/" a); [done|]. intros Hs. by rewrite IH.
Qed.

Lemma segments_single (s : string) :
  PyStr.has_char "/" s = false → s ≠ EmptyString → s ≠ "." → Posix.segments s = [s].
Proof.
  intros Hs Hne Hdot. unfold Posix.segments. rewrite split_slash_no_slash by done. cbn.
  destruct (String.eqb_spec s EmptyString); [done|].
  destruct (String.eqb_spec s "."); done.
Qed.

Lemma no_slash_relative (s : string) :
  PyStr.has_char "/" s = false → PyStr.startswith "/" s = false.
Proof.
  destruct s as [|a s]; [done|]. cbn [PyStr.has_char PyStr.startswith].
  by destruct (Ascii.eqb "/" a).
Qed.

(** A single clean name is put under the token directory as it is. *)
Lemma pathlib_div_tokens_single (b : string) :
  PyStr.has_char "/" b = false → b ≠ EmptyString → b ≠ "." →
  Posix.pathlib_div "tokens" b = "tokens/" +:+ b.
Proof.
  intros Hs Hne Hdot. unfold Posix.pathlib_div.
  rewrite no_slash_relative, (segments_single b) by done. reflexivity.
Qed.

Lemma pathlib_div_tokens_nonempty (b : string) :
  Posix.pathlib_div "tokens" b ≠ EmptyString.
Proof.
  unfold Posix.pathlib_div. destruct (PyStr.startswith "/" b).
  - unfold Posix.root_of. by destruct (_ && _).
  - change (Posix.segments "tokens") with ["tokens"]. cbn. by destruct (Posix.segments b).
Qed.

Lemma pathlib_div_tokens_absolute (b : string) :
  PyStr.startswith "/" (Posix.pathlib_div "tokens" b) = PyStr.startswith "/" b.
Proof.
  unfold Posix.pathlib_div. destruct (PyStr.startswith "/" b).
  - unfold Posix.root_of. by destruct (_ && _).
  - change (Posix.segments "tokens") with ["tokens"]. cbn. by destruct (Posix.segments b).
Qed.

Lemma normalize_no_slash (s : string) :
  PyStr.has_char "/" s = false → PyStr.has_char "/" (normalize_account_id s) = false.
Proof.
  intros Hs. rewrite normalize_as_subst.
  apply subst_char_keeps_absent; [done|]. by apply subst_char_keeps_absent.
Qed.

(** Without a path separator in identity, api and profile, the token file
    is the cache key with its extension, directly under the token
    directory. *)
Lemma token_file_no_slash (i a p : string) :
  PyStr.has_char "/" i = false →
  PyStr.has_char "/" a = false →
  PyStr.has_char "/" p = false →
  token_file i a p = "tokens/" +:+ cache_key i a p +:+ ".json".
Proof.
  intros Hi Ha Hp. unfold token_file, DEFAULT_TOKEN_DIR.
  apply pathlib_div_tokens_single.
  - unfold cache_key. rewrite !has_char_append, normalize_no_slash, Ha, Hp by done.
    reflexivity.
  - unfold cache_key. destruct (normalize_account_id i); done.
  - unfold cache_key. destruct (normalize_account_id i) as [|c [|c' n]]; done.
Qed.

Lemma plain_no_slash (s : string) :
  plain s = true → PyStr.has_char "/" s = false.
Proof.
  unfold plain. destruct (PyStr.has_char "_" s); [done|].
  by destruct (PyStr.has_char "/" s).
Qed.

Lemma token_file_inj (i1 a1 p1 i2 a2 p2 : string) :
  plain i1 = true → plain a1 = true → plain p1 = true →
  plain i2 = true → plain a2 = true → plain p2 = true →
  token_file i1 a1 p1 = token_file i2 a2 p2 →
  cache_key i1 a1 p1 = cache_key i2 a2 p2.
Proof.
  intros Hi1 Ha1 Hp1 Hi2 Ha2 Hp2.
  rewrite !token_file_no_slash by auto using plain_no_slash.
  intros Heq%(inj (String.app _)).
  by apply (split_last_char "." _ _ "json" "json") in Heq as [? _].
Qed.

Lemma youtube_token_file_inj (account1 account2 : string) :
  PyStr.has_char "_" account1 = false →
  PyStr.has_char "_" account2 = false →
  YoutubeAuth.token_file account1 = YoutubeAuth.token_file account2 →
  account1 = account2.
Proof.
  intros H1 H2. unfold YoutubeAuth.token_file. intros Heq%join_tokens_inj.
  apply (split_last_char "." _ _ "json" "json") in Heq as [Heq _]; [|done..].
  by apply normalize_inj_underscore_free.
Qed.

Lemma plain_underscore_free (s : string) :
  plain s = true → PyStr.has_char "_" s = false.
Proof. unfold plain. by destruct (PyStr.has_char "_" s). Qed.

End Naming.

(** ** Reasoning rules for the monad *)

Section WpRules.
Context {A B : Type}.

Lemma wp_ret (a : A) (Q : Result A → World → Prop) (w : World) :
  Q (Ok a) w → wp (mret a) Q w.
Proof. done. Qed.

Lemma wp_raise (e : Exn) (Q : Result A → World → Prop) (w : World) :
  Q (Raise e) w → wp (raise e) Q w.
Proof. done. Qed.

Lemma wp_lift_result (r : Result A) (Q : Result A → World → Prop) (w : World) :
  Q r w → wp (lift_result r) Q w.
Proof. done. Qed.

Lemma wp_bind (m : M A) (f : A → M B) (Q : Result B → World → Prop) (w : World) :
  wp m (λ r w', match r with
                | Ok a => wp (f a) Q w'
                | Raise e => Q (Raise e) w'
                end) w →
  wp (m ≫= f) Q w.
Proof.
  unfold wp, mbind, M_bind. by destruct (m w) as [[a|e] w'].
Qed.

Lemma wp_fmap (g : A → B) (m : M A) (Q : Result B → World → Prop) (w : World) :
  wp m (λ r w', match r with
                | Ok a => Q (Ok (g a)) w'
                | Raise e => Q (Raise e) w'
                end) w →
  wp (g <$> m) Q w.
Proof.
  unfold wp, fmap, M_fmap. by destruct (m w) as [[a|e] w'].
Qed.

Lemma wp_try_except (m : M A) (h : Exn → M A) (Q : Result A → World → Prop)
    (w : World) :
  wp m (λ r w', match r with
                | Ok a => Q (Ok a) w'
                | Raise e => wp (h e) Q w'
                end) w →
  wp (try_except m h) Q w.
Proof.
  unfold wp, try_except. by destruct (m w) as [[a|e] w'].
Qed.

Lemma wp_run (m : M A) (Q : Result A → World → Prop) (s : FS) :
  wp m Q (initial s) → Q (run m s).1 (run m s).2.
Proof. done. Qed.

End WpRules.

Lemma wp_emit (e : Event) (Q : Result unit → World → Prop) (w : World) :
  Q (Ok tt) (mkWorld (fs w) (trace w ++ [e])%list (history w)) → wp (emit e) Q w.
Proof. done. Qed.

Lemma wp_get_fs (Q : Result FS → World → Prop) (w : World) :
  Q (Ok (fs w)) w → wp get_fs Q w.
Proof. done. Qed.

Lemma wp_set_fs (s : FS) (Q : Result unit → World → Prop) (w : World) :
  Q (Ok tt) (mkWorld s (trace w) (history w ++ [s])%list) → wp (set_fs s) Q w.
Proof. done. Qed.

Ltac wp_simpl := cbn [fs trace history app fst snd files dirs umask content mode].

(** One step of the program at the head of the goal. *)
Ltac wp_step :=
  lazymatch goal with
  | |- wp (mbind _ _) _ _ => apply wp_bind
  | |- wp (mret _) _ _ => apply wp_ret
  | |- wp (raise _) _ _ => apply wp_raise
  | |- wp (lift_result _) _ _ => apply wp_lift_result
  | |- wp (fmap _ _) _ _ => apply wp_fmap
  | |- wp (try_except _ _) _ _ => apply wp_try_except
  | |- wp (emit _) _ _ => apply wp_emit
  | |- wp get_fs _ _ => apply wp_get_fs
  | |- wp (set_fs _) _ _ => apply wp_set_fs
  end; wp_simpl.

(** Case split on the test the program has reached. *)
Ltac wp_branch :=
  lazymatch goal with
  | |- wp (if ?b then _ else _) _ _ => destruct b eqn:?
  | |- wp (match ?x with _ => _ end) _ _ => destruct x eqn:?
  | |- match ?x with _ => _ end => destruct x eqn:?
  end; wp_simpl.

(** Turn a statement about [(run m s).1] and [(run m s).2] into a [wp]. *)
Ltac wp_start :=
  lazymatch goal with
  | |- context [run ?m ?s] =>
      pattern (run m s).1, (run m s).2;
      lazymatch goal with
      | |- ?Q _ _ => refine (wp_run m Q s _)
      end;
      unfold initial
  end.

(** Case analysis on [e ∈ [e1; ...; en]] for every such hypothesis. *)
Ltac inv_events :=
  repeat match goal with
  | H : _ ∈ [] |- _ => by apply elem_of_nil in H
  | H : _ ∈ _ :: _ |- _ => apply elem_of_cons in H as [H|H]; [simplify_eq|]
  end.

Ltac elem_of_list :=
  repeat (apply elem_of_cons; first [by left | right]).

Lemma parent_exists_tokens (s : FS) : Posix.parent_exists s "tokens" = true.
Proof. reflexivity. Qed.

Lemma exists_of_file (s : FS) (p : string) (f : File) :
  files s !! p = Some f → Posix.exists_ s p = true.
Proof.
  intros Hf. unfold Posix.exists_, Posix.is_file. by rewrite Hf, orb_true_r.
Qed.

Lemma not_usable_false (c : Credentials) : not_usable (Some c) = false → valid c = true.
Proof. cbn. by destruct (valid c). Qed.

Lemma not_usable_true (c : Credentials) : not_usable (Some c) = true → valid c = false.
Proof. cbn. by destruct (valid c). Qed.

(** ** Lifecycle: my_google_api_helpers.py *)

Section HelpersLifecycle.
Context `{Collaborators}.
Import GoogleApiHelpers.

Lemma token_file_nonempty (i a p : string) : token_file i a p ≠ EmptyString.
Proof. apply pathlib_div_tokens_nonempty. Qed.

Lemma path_exists_token_file (s : FS) (i a p : string) :
  Posix.path_exists s (token_file i a p) = Posix.exists_ s (token_file i a p).
Proof.
  pose proof (token_file_nonempty i a p).
  unfold Posix.path_exists. by destruct (token_file i a p).
Qed.

Ltac unfold_helpers :=
  unfold get_google_api_client, load_scope_profiles, get_scopes_for,
    load_token, consent_branch, save_token, Posix.mkdir_exist_ok, Posix.open_w,
    Posix.write, DEFAULT_TOKEN_DIR.

(** X23: with the scope table in place, [get_google_api_client] hands a
    cached record to [build] unchanged, with no store write, no refresh
    and no consent flow, exactly when a record was loaded from the token
    file and the library reports it valid ([creds.valid]): that test is
    the only one the code makes. *)
Theorem helpers_reuse_iff_library_valid (api profile account cfgpath : string)
    (secret : option string) (cfg : ScopeConfig) (profiles : gmap string (list string))
    (requested : list string) (s : FS) (c : Credentials) :
  yaml_safe_load cfgpath = Ok cfg →
  cfg !! api = Some profiles →
  profiles !! profile = Some requested →
  Posix.is_file s "tokens" = false →
  let out := run (get_google_api_client api profile account secret cfgpath) s in
  (EvBuild api "v3" c ∈ trace out.2
   ∧ forallb quiet (trace out.2) = true
   ∧ files (fs out.2) = files s
   ∧ out.1 = build api "v3" c)
  ↔ (∃ f, files s !! token_file account api profile = Some f
          ∧ from_authorized_user_info (content f) requested = Ok c
          ∧ valid c = true).
Proof.
  intros Hy Hc Hp Ht out. subst out.
  wp_start; unfold_helpers.
  pose proof (λ s, path_exists_token_file s account api profile) as Htf.
  generalize dependent (token_file account api profile). intros tf Htf.
  set (sec := match secret with Some p => _ | None => _ end).
  repeat first
    [ wp_step
    | progress rewrite ?Hy, ?Hc, ?Hp, ?Ht, ?parent_exists_tokens, ?Htf, ?lookup_insert_eq
    | wp_branch ].
  all: (split; [intros (Hb & Hq & Hfiles & Hr) | intros (f' & Hf' & Hp' & Hv')]).
  all: try (by cbn in Hq).
  all: try (by inv_events).
  all: try (simplify_eq;
            match goal with
            | Hn : not_usable (Some _) = true |- _ =>
                apply not_usable_true in Hn; congruence
            end).
  all: try (unfold Posix.exists_, Posix.is_file in *; cbn [files] in *;
            match goal with
            | Hl : files _ !! _ = Some _,
              Hn : _ || match files _ !! _ with _ => _ end = false |- _ =>
                rewrite Hl, orb_true_r in Hn; done
            end).
  all: try (simplify_eq; congruence).
  all: try (inv_events;
            match goal with
            | Hn : not_usable (Some _) = false |- _ =>
                apply not_usable_false in Hn; by eauto
            end).
  all: simplify_eq;
    match goal with
    | Hl : from_authorized_user_info _ _ = Ok ?a |- _ =>
        assert (c = a) as -> by congruence
    end;
    split_and!; [elem_of_list|done..].
Qed.

(** A call touches no file but its own token file, and loads a token from
    nowhere else. *)
Lemma helpers_frame (api profile account cfgpath : string) (secret : option string)
    (s : FS) :
  let out := run (get_google_api_client api profile account secret cfgpath) s in
  (∀ p, p ≠ token_file account api profile → files (fs out.2) !! p = files s !! p)
  ∧ (∀ p req, EvLoad p req ∈ trace out.2 → p = token_file account api profile).
Proof.
  intros out. subst out.
  wp_start; unfold_helpers.
  pose proof (λ s, path_exists_token_file s account api profile) as Htf.
  generalize dependent (token_file account api profile). intros tf Htf.
  set (sec := match secret with Some p => _ | None => _ end).
  repeat first
    [ wp_step
    | progress rewrite ?parent_exists_tokens, ?Htf, ?lookup_insert_eq
    | wp_branch ].
  all: split; [intros p Hne; by rewrite ?lookup_insert_ne by done
              |intros p req Hl; by inv_events].
Qed.

(** The observable file-system states of a call that saves: the state
    after the directory step, the token file truncated to empty, and the
    token file holding the whole serialisation of the record that is then
    handed to [build]. *)
Lemma helpers_save_in_place (api profile account cfgpath : string)
    (secret : option string) (s : FS) (p data : string) :
  let out := run (get_google_api_client api profile account secret cfgpath) s in
  EvWrite p data ∈ trace out.2 →
  p = token_file account api profile
  ∧ ∃ c s1 s2 m,
      data = to_json c
      ∧ history out.2 = [s1; s2; fs out.2]
      ∧ files s1 = files s
      ∧ files s2 = <[p := mkFile EmptyString m]> (files s)
      ∧ files (fs out.2) = <[p := mkFile (to_json c) m]> (files s)
      ∧ m = match files s !! p with
            | Some f => mode f
            | None => Posix.creation_mode s
            end
      ∧ out.1 = build api "v3" c.
Proof.
  intros out. subst out. revert p data.
  wp_start; unfold_helpers.
  pose proof (λ s, path_exists_token_file s account api profile) as Htf.
  generalize dependent (token_file account api profile). intros tf Htf.
  set (sec := match secret with Some p => _ | None => _ end).
  repeat first
    [ wp_step
    | progress rewrite ?parent_exists_tokens, ?Htf, ?lookup_insert_eq
    | wp_branch ].
  all: intros p data Hw.
  all: inv_events.
  all: split; [done|].
  all: eexists _, _, _, _; split_and!; try reflexivity.
  all: by rewrite insert_insert_eq.
Qed.

(** How [get_google_api_client] handles a token file the library rejects,
    a failed refresh, and a missing client secret. *)
Lemma helpers_corrupt_token_raises (api profile account cfgpath : string)
    (secret : option string) (cfg : ScopeConfig) (profiles : gmap string (list string))
    (requested : list string) (s : FS) (f : File) (e : Exn) :
  yaml_safe_load cfgpath = Ok cfg →
  cfg !! api = Some profiles →
  profiles !! profile = Some requested →
  Posix.is_file s "tokens" = false →
  files s !! token_file account api profile = Some f →
  from_authorized_user_info (content f) requested = Raise e →
  let out := run (get_google_api_client api profile account secret cfgpath) s in
  out.1 = Raise e
  ∧ trace out.2 = [EvMkdir "tokens"; EvLoad (token_file account api profile) requested].
Proof.
  intros Hy Hc Hp Ht Hf He out. subst out.
  wp_start; unfold_helpers.
  pose proof (λ s, path_exists_token_file s account api profile) as Htf.
  generalize dependent (token_file account api profile). intros tf Hf Htf.
  set (sec := match secret with Some p => _ | None => _ end).
  assert (∀ d, Posix.exists_ (mkFS d (files s) (umask s)) tf = true) as Hex
    by (intros d; by eapply exists_of_file).
  pose proof (exists_of_file _ _ _ Hf) as Hex'.
  repeat first
    [ wp_step
    | progress rewrite ?Hy, ?Hc, ?Hp, ?Ht, ?parent_exists_tokens, ?Htf, ?Hex, ?Hex',
        ?Hf, ?He
    | wp_branch ]; done.
Qed.

Lemma helpers_refresh_failure_raises (api profile account cfgpath : string)
    (secret : option string) (cfg : ScopeConfig) (profiles : gmap string (list string))
    (requested : list string) (s : FS) (f : File) (c : Credentials) (e : Exn) :
  yaml_safe_load cfgpath = Ok cfg →
  cfg !! api = Some profiles →
  profiles !! profile = Some requested →
  Posix.is_file s "tokens" = false →
  files s !! token_file account api profile = Some f →
  from_authorized_user_info (content f) requested = Ok c →
  valid c = false → expired c = true → has_refresh_token c = true →
  refresh c = Raise e →
  let out := run (get_google_api_client api profile account secret cfgpath) s in
  out.1 = Raise e
  ∧ trace out.2 = [EvMkdir "tokens"; EvLoad (token_file account api profile) requested;
                   EvRefresh c]
  ∧ files (fs out.2) = files s.
Proof.
  intros Hy Hc Hp Ht Hf Hl Hv Hx Hrt He out. subst out.
  wp_start; unfold_helpers.
  pose proof (λ s, path_exists_token_file s account api profile) as Htf.
  generalize dependent (token_file account api profile). intros tf Hf Htf.
  set (sec := match secret with Some p => _ | None => _ end).
  assert (∀ d, Posix.exists_ (mkFS d (files s) (umask s)) tf = true) as Hex
    by (intros d; by eapply exists_of_file).
  pose proof (exists_of_file _ _ _ Hf) as Hex'.
  assert (not_usable (Some c) = true) as Hnu by (cbn; by rewrite Hv).
  assert (wants_refresh (Some c) = true) as Hwr by (cbn; by rewrite Hx, Hrt).
  repeat first
    [ wp_step
    | progress rewrite ?Hy, ?Hc, ?Hp, ?Ht, ?parent_exists_tokens, ?Htf, ?Hex, ?Hex',
        ?Hf, ?Hl, ?Hnu, ?Hwr, ?He
    | wp_branch ]; done.
Qed.

Lemma helpers_missing_secret_makes_dir (api profile account cfgpath : string)
    (cfg : ScopeConfig) (profiles : gmap string (list string))
    (requested : list string) (s : FS) :
  yaml_safe_load cfgpath = Ok cfg →
  cfg !! api = Some profiles →
  profiles !! profile = Some requested →
  getenv "GOOGLE_CLIENT_SECRET" = None →
  Posix.exists_ s "tokens" = false →
  Posix.exists_ (mkFS ({["tokens"]} ∪ dirs s) (files s) (umask s))
    (token_file account api profile) = false →
  Posix.exists_ (mkFS ({["tokens"]} ∪ dirs s) (files s) (umask s))
    "secret/client_secret.json" = false →
  let out := run (get_google_api_client api profile account None cfgpath) s in
  out.1 = Raise (FileNotFoundError "Missing client_secret.json")
  ∧ trace out.2 = [EvMkdir "tokens"]
  ∧ dirs (fs out.2) = {["tokens"]} ∪ dirs s
  ∧ history out.2 = [fs out.2].
Proof.
  intros Hy Hc Hp Hg Ht Hf Hs out. subst out.
  wp_start; unfold_helpers.
  pose proof (λ s, path_exists_token_file s account api profile) as Htf.
  generalize dependent (token_file account api profile). intros tf Hf Htf.
  apply orb_false_elim in Ht as [Htd Htf'].
  rewrite Hg. cbn [default from_option].
  repeat first
    [ wp_step
    | progress rewrite ?Hy, ?Hc, ?Hp, ?Htd, ?Htf', ?parent_exists_tokens, ?Htf, ?Hf
    | progress (unfold Posix.path_exists; rewrite ?Hs; cbn [negb])
    | wp_branch ]; done.
Qed.

(** Two requests with distinct plain triples keep to their own token
    files. *)
Lemma helpers_isolation (i1 a1 p1 i2 a2 p2 cfgpath1 cfgpath2 : string)
    (secret1 secret2 : option string) (s : FS) :
  plain i1 = true → plain a1 = true → plain p1 = true →
  plain i2 = true → plain a2 = true → plain p2 = true →
  (i1, a1, p1) ≠ (i2, a2, p2) →
  let w1 := (run (get_google_api_client a1 p1 i1 secret1 cfgpath1) s).2 in
  let w2 := (run (get_google_api_client a2 p2 i2 secret2 cfgpath2) (fs w1)).2 in
  token_file i1 a1 p1 ≠ token_file i2 a2 p2
  ∧ (∀ p data, EvWrite p data ∈ trace w1 → p = token_file i1 a1 p1)
  ∧ files (fs w1) !! token_file i2 a2 p2 = files s !! token_file i2 a2 p2
  ∧ (∀ p req, EvLoad p req ∈ trace w2 → p = token_file i2 a2 p2).
Proof.
  intros Hi1 Ha1 Hp1 Hi2 Ha2 Hp2 Hne w1 w2.
  assert (token_file i1 a1 p1 ≠ token_file i2 a2 p2) as Hfiles.
  { intros Heq%token_file_inj; [|done..]. revert Heq.
    apply cache_key_injective_underscore_free_aux; auto using plain_underscore_free. }
  split_and!.
  - done.
  - intros p data Hw.
    by destruct (helpers_save_in_place a1 p1 i1 cfgpath1 secret1 s p data Hw).
  - destruct (helpers_frame a1 p1 i1 cfgpath1 secret1 s) as [Hframe _].
    by apply Hframe.
  - by destruct (helpers_frame a2 p2 i2 cfgpath2 secret2 (fs w1)) as [_ Hload].
Qed.

End HelpersLifecycle.

(** ** Lifecycle: youtube_auth.py *)

Section YoutubeLifecycle.
Context `{Collaborators}.
Import YoutubeAuth.

Ltac unfold_youtube :=
  unfold get_authenticated_youtube, load_token, consent_flow,
    Posix.mkdir_exist_ok, Posix.open_w, Posix.write, Posix.chmod.

(** A call that writes passes through four file-system states: after the
    directory step, the token file truncated, the token file holding the
    whole record under its old (or creation) mode, and finally the same
    file with mode 0o600. *)
Lemma youtube_save_then_chmod (account : string) (scopes : option (list string))
    (secret : option string) (headless : bool) (s : FS) (p data : string) :
  let out := run (get_authenticated_youtube account scopes secret headless) s in
  EvWrite p data ∈ trace out.2 →
  p = token_file account
  ∧ ∃ c s1 s2 s3 m,
      data = to_json c
      ∧ history out.2 = [s1; s2; s3; fs out.2]
      ∧ files s1 = files s
      ∧ files s2 = <[p := mkFile EmptyString m]> (files s)
      ∧ files s3 = <[p := mkFile (to_json c) m]> (files s)
      ∧ files (fs out.2) = <[p := mkFile (to_json c) 384]> (files s)
      ∧ m = match files s !! p with
            | Some f => mode f
            | None => Posix.creation_mode s
            end
      ∧ out.1 = build "youtube" "v3" c.
Proof.
  intros out. subst out. revert p data.
  wp_start; unfold_youtube.
  generalize (token_file account). intros tf.
  set (sec := PyStr.or_default secret DEFAULT_CLIENT_SECRET_FILE).
  set (req := match scopes with Some (x :: l) => _ | _ => _ end).
  repeat first
    [ wp_step
    | progress rewrite ?parent_exists_tokens, ?lookup_insert_eq
    | wp_branch ].
  all: intros p data Hw.
  all: inv_events.
  all: split; [done|].
  all: eexists _, _, _, _, _; split_and!; try reflexivity.
  all: by rewrite ?insert_insert_eq.
Qed.

(** X16: the client secret is checked before anything else is touched:
    when it is missing, [get_authenticated_youtube] raises
    [FileNotFoundError] and leaves the file system as it was, whatever
    the token cache holds. *)
Lemma youtube_missing_secret_no_effects (account : string)
    (scopes : option (list string)) (secret : option string) (headless : bool) (s : FS) :
  Posix.exists_ s (PyStr.or_default secret DEFAULT_CLIENT_SECRET_FILE) = false →
  let out := run (get_authenticated_youtube account scopes secret headless) s in
  out.1 = Raise (FileNotFoundError "Missing client_secret.json")
  ∧ fs out.2 = s ∧ history out.2 = []
  ∧ trace out.2 = [EvPrint (PyStr.or_default secret DEFAULT_CLIENT_SECRET_FILE)].
Proof.
  intros Hs out. subst out. wp_start; unfold_youtube.
  repeat first [ wp_step | progress (rewrite ?Hs; cbn [negb]) ]. done.
Qed.

(** X17: a token file the library rejects is logged and treated as a
    miss: the call goes on to the consent flow. *)
Lemma youtube_corrupt_token_is_miss (account : string)
    (scopes : option (list string)) (secret : option string) (headless : bool)
    (s : FS) (f : File) (e : Exn) :
  let sec := PyStr.or_default secret DEFAULT_CLIENT_SECRET_FILE in
  let req := match scopes with Some (x :: l) => x :: l | _ => SCOPES end in
  Posix.exists_ s sec = true →
  Posix.is_file s "tokens" = false →
  files s !! token_file account = Some f →
  from_authorized_user_info (content f) req = Raise e →
  let out := run (get_authenticated_youtube account scopes secret headless) s in
  ∃ evs, trace out.2
         = ([EvPrint sec; EvMkdir "tokens"; EvLoad (token_file account) req;
             EvLog WARNING "Failed to load credentials";
             EvLog INFO "Starting OAuth flow"; EvFlowInit sec req] ++ evs)%list.
Proof.
  intros sec req Hs Ht Hf He out. subst out.
  wp_start; unfold_youtube.
  fold sec. fold req.
  generalize dependent (token_file account). intros tf Hf.
  assert (∀ d, Posix.exists_ (mkFS d (files s) (umask s)) tf = true) as Hex
    by (intros d; by eapply exists_of_file).
  pose proof (exists_of_file _ _ _ Hf) as Hex'.
  clearbody sec req.
  repeat first
    [ wp_step
    | progress (rewrite ?Hs, ?Ht, ?parent_exists_tokens, ?Hex, ?Hex', ?Hf, ?He,
                  ?lookup_insert_eq; cbn [negb not_usable wants_refresh])
    | wp_branch ].
  all: by eexists.
Qed.

(** X18: a failed refresh is logged and followed by exactly one consent
    flow, whose record is the one saved, with mode 0o600, and handed to
    [build]. *)
Lemma youtube_refresh_failure_falls_back (account : string)
    (scopes : option (list string)) (secret : option string) (headless : bool)
    (s : FS) (f : File) (c c' : Credentials) (fl : Flow) (e : Exn) :
  let sec := PyStr.or_default secret DEFAULT_CLIENT_SECRET_FILE in
  let req := match scopes with Some (x :: l) => x :: l | _ => SCOPES end in
  Posix.exists_ s sec = true →
  Posix.is_dir s "tokens" = true →
  Posix.is_dir s (token_file account) = false →
  Posix.parent_exists s (token_file account) = true →
  files s !! token_file account = Some f →
  from_authorized_user_info (content f) req = Ok c →
  valid c = false → expired c = true → has_refresh_token c = true →
  refresh c = Raise e →
  from_client_secrets_file sec req = Ok fl →
  (if headless then run_console fl else run_local_server fl) = Ok c' →
  let out := run (get_authenticated_youtube account scopes secret headless) s in
  out.1 = build "youtube" "v3" c'
  ∧ filter (λ ev, is_consent ev = true) (trace out.2)
    = [EvFlowInit sec req; EvConsent headless fl]
  ∧ content_at (fs out.2) (token_file account) = Some (to_json c')
  ∧ mode_at (fs out.2) (token_file account) = Some 384%Z.
Proof.
  intros sec req Hs Ht Hd Hpar Hf Hl Hv Hx Hrt Hr Hfl Hflow out. subst out.
  wp_start; unfold_youtube.
  fold sec. fold req.
  generalize dependent (token_file account). intros tf Hd Hpar Hf.
  pose proof (exists_of_file _ _ _ Hf) as Hex'.
  assert (not_usable (Some c) = true) as Hnu by (cbn; by rewrite Hv).
  assert (wants_refresh (Some c) = true) as Hwr by (cbn; by rewrite Hx, Hrt).
  clearbody sec req.
  repeat first
    [ wp_step
    | progress (rewrite ?Hs, ?Ht, ?Hex', ?Hf, ?Hl, ?Hnu, ?Hwr, ?Hr, ?Hfl, ?Hd, ?Hpar,
                  ?Hflow, ?Hv, ?lookup_insert_eq; cbn [negb not_usable])
    | wp_branch ].
  unfold content_at, mode_at. cbn [files]. rewrite lookup_insert_eq.
  by split_and!.
Qed.

(** A call touches no file but its own token file, and loads a token from
    nowhere else. *)
Lemma youtube_frame (account : string) (scopes : option (list string))
    (secret : option string) (headless : bool) (s : FS) :
  let out := run (get_authenticated_youtube account scopes secret headless) s in
  (∀ p, p ≠ token_file account → files (fs out.2) !! p = files s !! p)
  ∧ (∀ p req, EvLoad p req ∈ trace out.2 → p = token_file account).
Proof.
  intros out. subst out.
  wp_start; unfold_youtube.
  generalize (token_file account). intros tf.
  set (sec := PyStr.or_default secret DEFAULT_CLIENT_SECRET_FILE).
  set (req := match scopes with Some (x :: l) => _ | _ => _ end).
  repeat first
    [ wp_step
    | progress rewrite ?parent_exists_tokens, ?lookup_insert_eq
    | wp_branch ].
  all: split; [intros p Hne; by rewrite ?lookup_insert_ne by done
              |intros p r Hl; by inv_events].
Qed.

(** Two requests for distinct plain accounts keep to their own token
    files. *)
Lemma youtube_isolation (account1 account2 : string)
    (scopes1 scopes2 : option (list string)) (secret1 secret2 : option string)
    (headless1 headless2 : bool) (s : FS) :
  plain account1 = true → plain account2 = true →
  account1 ≠ account2 →
  let w1 := (run (get_authenticated_youtube account1 scopes1 secret1 headless1) s).2 in
  let w2 := (run (get_authenticated_youtube account2 scopes2 secret2 headless2)
               (fs w1)).2 in
  token_file account1 ≠ token_file account2
  ∧ (∀ p data, EvWrite p data ∈ trace w1 → p = token_file account1)
  ∧ files (fs w1) !! token_file account2 = files s !! token_file account2
  ∧ (∀ p req, EvLoad p req ∈ trace w2 → p = token_file account2).
Proof.
  intros H1 H2 Hne w1 w2.
  assert (token_file account1 ≠ token_file account2) as Hfiles.
  { intros Heq. apply Hne.
    apply youtube_token_file_inj; auto using plain_underscore_free. }
  split_and!.
  - done.
  - intros p data Hw.
    by destruct (youtube_save_then_chmod account1 scopes1 secret1 headless1 s p data Hw).
  - destruct (youtube_frame account1 scopes1 secret1 headless1 s) as [Hframe _].
    by apply Hframe.
  - by destruct (youtube_frame account2 scopes2 secret2 headless2 (fs w1)) as [_ Hload].
Qed.

(** C6 (amended): [get_authenticated_youtube] sets the token file's mode
    to 0o600 with a separate [chmod] after the file has been written: a
    call that writes a record passes through a state in which the file
    already holds the whole record under its previous mode (0o666 minus
    the umask when the file is new), and ends with the file holding the
    record under mode 0o600. *)
Theorem youtube_token_owner_only_after_chmod (account : string)
    (scopes : option (list string)) (secret : option string) (headless : bool)
    (s : FS) (p data : string) :
  let out := run (get_authenticated_youtube account scopes secret headless) s in
  EvWrite p data ∈ trace out.2 →
  p = token_file account
  ∧ ∃ s1 s2 s3,
      history out.2 = [s1; s2; s3; fs out.2]
      ∧ content_at s3 p = Some data
      ∧ mode_at s3 p = Some (match files s !! p with
                             | Some f => mode f
                             | None => Posix.creation_mode s
                             end)
      ∧ content_at (fs out.2) p = Some data
      ∧ mode_at (fs out.2) p = Some 384%Z.
Proof.
  intros out Hw. subst out.
  destruct (youtube_save_then_chmod account scopes secret headless s p data Hw)
    as (Hp & c & s1 & s2 & s3 & m & -> & Hh & _ & _ & H3 & H4 & -> & _).
  split; [done|]. exists s1, s2, s3.
  unfold content_at, mode_at. rewrite H3, H4, !lookup_insert_eq.
  by split_and!.
Qed.

End YoutubeLifecycle.

(** ** Saving a record *)

Section SaveDiscipline.
Context `{Collaborators}.

(** C5 (amended): every save rewrites the token file in place and whole.
    The file is opened for writing, which truncates it to empty and keeps
    the mode of an existing file (a new file gets 0o666 minus the umask),
    and the complete serialisation of the record is then written in one
    call; no temporary file and no rename is involved, so between the two
    steps the file on disk is empty. No other file changes, and the data
    written is always the full [to_json] output of the record handed to
    [build], never a part of it. *)
Theorem token_save_rewrites_in_place (api profile account cfgpath : string)
    (secret : option string) (yaccount : string) (yscopes : option (list string))
    (ysecret : option string) (headless : bool) (s : FS) (p data : string) :
  let out := run (GoogleApiHelpers.get_google_api_client api profile account secret
                    cfgpath) s in
  let yout := run (YoutubeAuth.get_authenticated_youtube yaccount yscopes ysecret
                     headless) s in
  let m := match files s !! p with
           | Some f => mode f
           | None => Posix.creation_mode s
           end in
  (EvWrite p data ∈ trace out.2 →
   p = GoogleApiHelpers.token_file account api profile
   ∧ ∃ c s1 s2,
       data = to_json c
       ∧ history out.2 = [s1; s2; fs out.2]
       ∧ files s1 = files s
       ∧ files s2 = <[p := mkFile EmptyString m]> (files s)
       ∧ files (fs out.2) = <[p := mkFile (to_json c) m]> (files s)
       ∧ out.1 = build api "v3" c)
  ∧ (EvWrite p data ∈ trace yout.2 →
     p = YoutubeAuth.token_file yaccount
     ∧ ∃ c s1 s2 s3,
         data = to_json c
         ∧ history yout.2 = [s1; s2; s3; fs yout.2]
         ∧ files s1 = files s
         ∧ files s2 = <[p := mkFile EmptyString m]> (files s)
         ∧ files s3 = <[p := mkFile (to_json c) m]> (files s)
         ∧ files (fs yout.2) = <[p := mkFile (to_json c) 384]> (files s)
         ∧ yout.1 = build "youtube" "v3" c).
Proof.
  intros out yout m. split; intros Hw.
  - destruct (helpers_save_in_place api profile account cfgpath secret s p data Hw)
      as (Hp & c & s1 & s2 & m' & ? & ? & ? & ? & ? & -> & ?).
    split; [done|]. by exists c, s1, s2.
  - destruct (youtube_save_then_chmod yaccount yscopes ysecret headless s p data Hw)
      as (Hp & c & s1 & s2 & s3 & m' & ? & ? & ? & ? & ? & ? & -> & ?).
    split; [done|]. by exists c, s1, s2, s3.
Qed.

(** C1 (amended): requests whose names are plain (no underscore and no
    path separator in any component) never share a cached record. For two
    [get_google_api_client] requests with distinct (identity, api,
    profile) triples, and for two [get_authenticated_youtube] requests
    with distinct identities, the token files differ; the first request
    writes only its own token file and leaves the other's as it was, and
    the second loads a token only from its own token file. *)
Theorem token_isolation_plain_names
    (i1 a1 p1 i2 a2 p2 cfgpath1 cfgpath2 : string) (secret1 secret2 : option string)
    (account1 account2 : string) (scopes1 scopes2 : option (list string))
    (ysecret1 ysecret2 : option string) (headless1 headless2 : bool) (s : FS) :
  (plain i1 = true → plain a1 = true → plain p1 = true →
   plain i2 = true → plain a2 = true → plain p2 = true →
   (i1, a1, p1) ≠ (i2, a2, p2) →
   let w1 := (run (GoogleApiHelpers.get_google_api_client a1 p1 i1 secret1 cfgpath1)
                s).2 in
   let w2 := (run (GoogleApiHelpers.get_google_api_client a2 p2 i2 secret2 cfgpath2)
                (fs w1)).2 in
   GoogleApiHelpers.token_file i1 a1 p1 ≠ GoogleApiHelpers.token_file i2 a2 p2
   ∧ (∀ p data, EvWrite p data ∈ trace w1 → p = GoogleApiHelpers.token_file i1 a1 p1)
   ∧ files (fs w1) !! GoogleApiHelpers.token_file i2 a2 p2
     = files s !! GoogleApiHelpers.token_file i2 a2 p2
   ∧ (∀ p req, EvLoad p req ∈ trace w2 → p = GoogleApiHelpers.token_file i2 a2 p2))
  ∧ (plain account1 = true → plain account2 = true →
     account1 ≠ account2 →
     let w1 := (run (YoutubeAuth.get_authenticated_youtube account1 scopes1 ysecret1
                       headless1) s).2 in
     let w2 := (run (YoutubeAuth.get_authenticated_youtube account2 scopes2 ysecret2
                       headless2) (fs w1)).2 in
     YoutubeAuth.token_file account1 ≠ YoutubeAuth.token_file account2
     ∧ (∀ p data, EvWrite p data ∈ trace w1 → p = YoutubeAuth.token_file account1)
     ∧ files (fs w1) !! YoutubeAuth.token_file account2
       = files s !! YoutubeAuth.token_file account2
     ∧ (∀ p req, EvLoad p req ∈ trace w2 → p = YoutubeAuth.token_file account2)).
Proof.
  split.
  - apply helpers_isolation.
  - apply youtube_isolation.
Qed.

End SaveDiscipline.

(** ** Concrete scenarios *)

Section Scenarios.
Import Demo.
Import GoogleApiHelpers.

Example demo_roundtrip :
  demo_from_authorized_user_info (demo_to_json expired_record) [gmail_send]
  = Ok expired_record.
Proof. reflexivity. Qed.

Example demo_roundtrip_issued :
  demo_from_authorized_user_info (demo_to_json (issued [gmail_send])) [gmail_send]
  = Ok (issued [gmail_send]).
Proof. reflexivity. Qed.

Example demo_malformed :
  demo_from_authorized_user_info "{ not a token" [gmail_send]
  = Raise (ValueError "malformed token file").
Proof. reflexivity. Qed.

(** The end-to-end scenario of the specification: no token file, client
    secret present; one consent flow, record saved under the expected
    name. The file ends with mode 0o644 under umask 0o022. *)
Example end_to_end_gmail_send :
  let out := run (get_google_api_client "gmail" "send" "user@x.com" None CONFIG_SCOPE_PATH)
               fresh_fs in
  out.1 = Ok (mkService "gmail" "v3" (issued [gmail_send]))
  ∧ filter (λ ev, is_consent ev = true) (trace out.2)
    = [EvFlowInit "secret/client_secret.json" [gmail_send];
       EvConsent false (mkFlow "secret/client_secret.json" [gmail_send])]
  ∧ content_at (fs out.2) "tokens/user_at_x_dot_com__gmail__send.json"
    = Some (demo_to_json (issued [gmail_send]))
  ∧ mode_at (fs out.2) "tokens/user_at_x_dot_com__gmail__send.json" = Some 420%Z.
Proof. vm_compute. done. Qed.

(** C1 (as stated, refuted). In [get_google_api_client] the identities
    [user@x.com] and [user_at_x.com] are distinct, yet the record that the
    consent flow issued for the first request is loaded from the shared
    token file and handed to the second request, with no refresh and no
    consent. In [get_authenticated_youtube] the token file is named after
    the account alone: a record issued for the read-only scope is loaded
    and handed to a request of the same account for [youtube.force-ssl]. *)
Lemma token_leak_across_requests :
  let first := run (get_google_api_client "gmail" "send" "user@x.com" None
                      CONFIG_SCOPE_PATH) fresh_fs in
  let second := run (get_google_api_client "gmail" "send" "user_at_x.com" None
                       CONFIG_SCOPE_PATH) (fs first.2) in
  let yfirst := run (YoutubeAuth.get_authenticated_youtube "user@x.com"
                       (Some [youtube_readonly]) None false) fresh_fs in
  let ysecond := run (YoutubeAuth.get_authenticated_youtube "user@x.com"
                        (Some [youtube_force_ssl]) None false) (fs yfirst.2) in
  (("user@x.com", "gmail", "send") ≠ ("user_at_x.com", "gmail", "send")
   ∧ first.1 = Ok (mkService "gmail" "v3" (issued [gmail_send]))
   ∧ second.1 = Ok (mkService "gmail" "v3" (issued [gmail_send]))
   ∧ trace second.2
     = [EvMkdir "tokens";
        EvLoad (token_file "user@x.com" "gmail" "send") [gmail_send];
        EvBuild "gmail" "v3" (issued [gmail_send])])
  ∧ ([youtube_readonly] ≠ [youtube_force_ssl]
     ∧ yfirst.1 = Ok (mkService "youtube" "v3" (issued [youtube_readonly]))
     ∧ ysecond.1 = Ok (mkService "youtube" "v3" (issued [youtube_readonly]))
     ∧ trace ysecond.2
       = [EvPrint "client_secret.json"; EvMkdir "tokens";
          EvLoad (YoutubeAuth.token_file "user@x.com") [youtube_force_ssl];
          EvBuild "youtube" "v3" (issued [youtube_readonly])]).
Proof.
  split; (split; [intros Heq; vm_compute in Heq; discriminate Heq|]);
    vm_compute; done.
Qed.

(** C3 (the code on the failing input): the cached record was granted the
    read-only scope only and the request asks for [youtube.force-ssl];
    [get_google_api_client] passes the requested scopes to the loader but
    compares nothing, and hands the record to [build] unchanged, with no
    write, no refresh and no consent, although it does not cover the
    requested scopes. *)
Lemma helpers_reuse_ignores_scope_coverage :
  let tf := token_file "user@x.com" "youtube" "write" in
  let s := fs_with_token tf (demo_to_json readonly_record) in
  let out := run (get_google_api_client "youtube" "write" "user@x.com" None
                    CONFIG_SCOPE_PATH) s in
  demo_scopes !! "youtube" ≫= (.!! "write") = Some [youtube_force_ssl]
  ∧ EvBuild "youtube" "v3" readonly_record ∈ trace out.2
  ∧ forallb quiet (trace out.2) = true
  ∧ files (fs out.2) = files s
  ∧ out.1 = Ok (mkService "youtube" "v3" readonly_record)
  ∧ spec_valid readonly_record [youtube_force_ssl] = false.
Proof.
  split_and!; [done| |done..].
  vm_compute. elem_of_list.
Qed.

(** C4 (the code on the failing input): the cached record is expired and
    carries a refresh token, the refresh is rejected;
    [get_google_api_client] lets the refresh error escape and starts no
    consent flow. *)
Theorem helpers_refresh_failure_propagates :
  let tf := token_file "user@x.com" "gmail" "send" in
  let s := fs_with_token tf (demo_to_json expired_record) in
  let out := run (get_google_api_client "gmail" "send" "user@x.com" None
                    CONFIG_SCOPE_PATH) s in
  out.1 = Raise (LibraryError "invalid_grant")
  ∧ trace out.2 = [EvMkdir "tokens"; EvLoad tf [gmail_send]; EvRefresh expired_record]
  ∧ filter (λ ev, is_consent ev = true) (trace out.2) = []
  ∧ content_at (fs out.2) tf = Some (demo_to_json expired_record).
Proof. vm_compute. done. Qed.

(** The sibling [get_authenticated_youtube] on the same kind of input:
    one consent flow, whose record is returned and saved. *)
Example youtube_refresh_failure_recovers :
  let tf := YoutubeAuth.token_file "user@x.com" in
  let s := fs_with_token tf (demo_to_json expired_record) in
  let out := run (YoutubeAuth.get_authenticated_youtube "user@x.com" None None false) s in
  out.1 = Ok (mkService "youtube" "v3" (issued [youtube_readonly]))
  ∧ filter (λ ev, is_consent ev = true) (trace out.2)
    = [EvFlowInit "client_secret.json" [youtube_readonly];
       EvConsent false (mkFlow "client_secret.json" [youtube_readonly])]
  ∧ content_at (fs out.2) tf = Some (demo_to_json (issued [youtube_readonly])).
Proof. vm_compute. done. Qed.

(** C5 (as stated, refuted): while the new record is being saved, the
    token file on disk is first the old record, then empty, then the new
    record; the empty file is neither of the two and does not load. *)
Lemma save_passes_through_empty_file :
  let tf := token_file "user@x.com" "gmail" "send" in
  let s := fs_with_token tf (demo_to_json dead_record) in
  let out := run (get_google_api_client "gmail" "send" "user@x.com" None
                    CONFIG_SCOPE_PATH) s in
  out.1 = Ok (mkService "gmail" "v3" (issued [gmail_send]))
  ∧ (λ st, content_at st tf) <$> history out.2
    = [Some (demo_to_json dead_record); Some EmptyString;
       Some (demo_to_json (issued [gmail_send]))]
  ∧ demo_from_authorized_user_info EmptyString [gmail_send]
    = Raise (ValueError "malformed token file").
Proof. vm_compute. done. Qed.

(** C6 (as stated, refuted): under umask 0o022 the token file written by
    [get_authenticated_youtube] holds the whole record with mode 0o644
    before [chmod] makes it 0o600; the token file written by
    [get_google_api_client] keeps mode 0o644. *)
Lemma token_file_observable_with_default_mode :
  let tf := YoutubeAuth.token_file "user@x.com" in
  let out := run (YoutubeAuth.get_authenticated_youtube "user@x.com" None None false)
               fresh_fs in
  let tf' := token_file "user@x.com" "gmail" "send" in
  let out' := run (get_google_api_client "gmail" "send" "user@x.com" None
                     CONFIG_SCOPE_PATH) fresh_fs in
  out.1 = Ok (mkService "youtube" "v3" (issued [youtube_readonly]))
  ∧ (λ st, (content_at st tf, mode_at st tf)) <$> history out.2
    = [(None, None);
       (Some EmptyString, Some 420%Z);
       (Some (demo_to_json (issued [youtube_readonly])), Some 420%Z);
       (Some (demo_to_json (issued [youtube_readonly])), Some 384%Z)]
  ∧ out'.1 = Ok (mkService "gmail" "v3" (issued [gmail_send]))
  ∧ mode_at (fs out'.2) tf' = Some 420%Z.
Proof. vm_compute. done. Qed.

(** C7 (the code on the failing input): the token file exists and its
    content is malformed; [get_google_api_client] lets the loader's
    exception escape instead of treating the file as a miss. *)
Theorem helpers_corrupt_token_propagates :
  let tf := token_file "user@x.com" "gmail" "send" in
  let s := fs_with_token tf "{ not a token" in
  let out := run (get_google_api_client "gmail" "send" "user@x.com" None
                    CONFIG_SCOPE_PATH) s in
  out.1 = Raise (ValueError "malformed token file")
  ∧ trace out.2 = [EvMkdir "tokens"; EvLoad tf [gmail_send]].
Proof. vm_compute. done. Qed.

(** The sibling [get_authenticated_youtube] on the same kind of input:
    the failure is logged and a consent flow provides the record. *)
Example youtube_corrupt_token_recovers :
  let tf := YoutubeAuth.token_file "user@x.com" in
  let s := fs_with_token tf "{ not a token" in
  let out := run (YoutubeAuth.get_authenticated_youtube "user@x.com" None None false) s in
  out.1 = Ok (mkService "youtube" "v3" (issued [youtube_readonly]))
  ∧ EvLog WARNING "Failed to load credentials" ∈ trace out.2.
Proof. split; [by vm_compute|]. vm_compute. elem_of_list. Qed.

(** C8 (the code on the failing input): neither token directory nor
    client secret exists; [get_google_api_client] reports the missing
    secret, but only after it has created the token directory. *)
Theorem helpers_missing_secret_creates_token_dir :
  let out := run (get_google_api_client "gmail" "send" "user@x.com" None
                    CONFIG_SCOPE_PATH) bare_fs in
  Posix.exists_ bare_fs "secret/client_secret.json" = false
  ∧ Posix.exists_ bare_fs "tokens" = false
  ∧ out.1 = Raise (FileNotFoundError "Missing client_secret.json")
  ∧ Posix.is_dir (fs out.2) "tokens" = true
  ∧ trace out.2 = [EvMkdir "tokens"].
Proof. vm_compute. done. Qed.

(** The sibling [get_authenticated_youtube] on the same input leaves the
    file system as it was. *)
Example youtube_missing_secret_leaves_disk :
  let out := run (YoutubeAuth.get_authenticated_youtube "user@x.com" None None false)
               bare_fs in
  out.1 = Raise (FileNotFoundError "Missing client_secret.json")
  ∧ fs out.2 = bare_fs ∧ history out.2 = [].
Proof. vm_compute. done. Qed.

(** *** The amended statements at concrete inputs *)

Lemma cache_key_injective_underscore_free_witness :
  cache_key "alice@x.com" "gmail" "send" ≠ cache_key "bob@x.com" "gmail" "send".
Proof.
  apply cache_key_injective_underscore_free; [reflexivity..|congruence].
Defined.

Lemma token_isolation_plain_names_witness :
  token_file "alice@x.com" "gmail" "send" ≠ token_file "bob@x.com" "gmail" "send"
  ∧ YoutubeAuth.token_file "alice@x.com" ≠ YoutubeAuth.token_file "bob@x.com".
Proof.
  pose proof (token_isolation_plain_names (H := demo)
                "alice@x.com" "gmail" "send" "bob@x.com" "gmail" "send"
                CONFIG_SCOPE_PATH CONFIG_SCOPE_PATH None None
                "alice@x.com" "bob@x.com" None None None None false false fresh_fs)
    as [Hh Hy].
  split.
  - refine (proj1 (Hh _ _ _ _ _ _ _)); [reflexivity..|congruence].
  - refine (proj1 (Hy _ _ _)); [reflexivity..|congruence].
Defined.


Lemma helpers_reuse_iff_library_valid_witness :
  let tf := token_file "user@x.com" "youtube" "read" in
  let s := fs_with_token tf (demo_to_json readonly_record) in
  let out := run (get_google_api_client "youtube" "read" "user@x.com" None
                    CONFIG_SCOPE_PATH) s in
  EvBuild "youtube" "v3" readonly_record ∈ trace out.2
  ∧ forallb quiet (trace out.2) = true
  ∧ files (fs out.2) = files s
  ∧ out.1 = Ok (mkService "youtube" "v3" readonly_record).
Proof.
  intros tf s out.
  refine (proj2 (helpers_reuse_iff_library_valid (H := demo)
                   "youtube" "read" "user@x.com" CONFIG_SCOPE_PATH None demo_scopes
                   {[ "read" := [youtube_readonly]; "write" := [youtube_force_ssl] ]}
                   [youtube_readonly] s readonly_record _ _ _ _) _);
    [reflexivity..|].
  exists (mkFile (demo_to_json readonly_record) 420).
  split_and!; reflexivity.
Defined.

Lemma token_save_rewrites_in_place_witness :
  let out := run (get_google_api_client "gmail" "send" "user@x.com" None
                    CONFIG_SCOPE_PATH) fresh_fs in
  let p := "tokens/user_at_x_dot_com__gmail__send.json" in
  let data := demo_to_json (issued [gmail_send]) in
  EvWrite p data ∈ trace out.2
  ∧ p = token_file "user@x.com" "gmail" "send".
Proof.
  intros out p data.
  assert (EvWrite p data ∈ trace out.2) as Hw by (vm_compute; elem_of_list).
  split; [exact Hw|].
  exact (proj1 (proj1 (token_save_rewrites_in_place (H := demo)
                         "gmail" "send" "user@x.com" CONFIG_SCOPE_PATH None
                         "user@x.com" None None false fresh_fs p data) Hw)).
Defined.

Lemma youtube_token_owner_only_after_chmod_witness :
  let out := run (YoutubeAuth.get_authenticated_youtube "user@x.com" None None false)
               fresh_fs in
  let p := "tokens/user_at_x_dot_com.json" in
  let data := demo_to_json (issued [youtube_readonly]) in
  EvWrite p data ∈ trace out.2
  ∧ p = YoutubeAuth.token_file "user@x.com".
Proof.
  intros out p data.
  assert (EvWrite p data ∈ trace out.2) as Hw by (vm_compute; elem_of_list).
  split; [exact Hw|].
  exact (proj1 (youtube_token_owner_only_after_chmod (H := demo)
                  "user@x.com" None None false fresh_fs p data Hw)).
Defined.

End Scenarios.

(** ** Further properties of the naming functions *)

Section NamingExtras.
Import GoogleApiHelpers.

Lemma subst_char_absent (c : ascii) (new s : string) :
  PyStr.has_char c s = false → PyStr.subst_char c new s = s.
Proof.
  induction s as [|a s IH]; [done|]. cbn.
  destruct (Ascii.eqb c a); [done|]. intros Hs. by rewrite IH.
Qed.

Lemma normalize_clean (s : string) :
  PyStr.has_char "@" (normalize_account_id s) = false
  ∧ PyStr.has_char "." (normalize_account_id s) = false.
Proof.
  rewrite normalize_as_subst. split.
  - apply subst_char_keeps_absent; [done|]. by apply subst_char_removes.
  - by apply subst_char_removes.
Qed.

Lemma length_append (s1 s2 : string) :
  String.length (s1 +:+ s2) = String.length s1 + String.length s2.
Proof. induction s1 as [|a s1 IH]; [done|]. rewrite append_cons. cbn. by rewrite IH. Qed.

(** X1: normalising an already normalised identity changes nothing, in both
    modules: [normalize(normalize(x)) = normalize(x)] for every string. *)
Theorem normalize_idempotent (s : string) :
  normalize_account_id (normalize_account_id s) = normalize_account_id s
  ∧ YoutubeAuth.normalize_account_id (YoutubeAuth.normalize_account_id s)
    = YoutubeAuth.normalize_account_id s.
Proof.
  assert (normalize_account_id (normalize_account_id s) = normalize_account_id s) as Hn.
  { destruct (normalize_clean s) as [Hat Hdot].
    rewrite (normalize_as_subst (normalize_account_id s)).
    by rewrite (subst_char_absent "@"), (subst_char_absent "."). }
  done.
Qed.

(** X2: the normaliser leaves a string unchanged exactly when the string
    contains neither [@] nor [.]. *)
Theorem normalize_fixpoint_iff (s : string) :
  normalize_account_id s = s
  ↔ PyStr.has_char "@" s = false ∧ PyStr.has_char "." s = false.
Proof.
  split.
  - intros Heq. rewrite <- Heq. apply normalize_clean.
  - intros [Hat Hdot]. rewrite normalize_as_subst.
    by rewrite (subst_char_absent "@"), (subst_char_absent ".").
Qed.

(** X3: the normalised identity is longer than the input by three
    characters for every [@] and by four for every [.]. *)
Theorem normalize_length (s : string) :
  String.length (normalize_account_id s)
  = String.length s + 3 * count_char "@" s + 4 * count_char "." s.
Proof.
  induction s as [|a s IH]; [done|].
  rewrite normalize_cons, length_append, IH. cbn [count_char String.length].
  destruct (Ascii.eqb "@" a) eqn:Ea.
  - apply Ascii.eqb_eq in Ea as <-. cbn. lia.
  - destruct (Ascii.eqb "." a); cbn; lia.
Qed.

(** X4: the normaliser works piecewise: normalising a concatenation gives
    the concatenation of the normalised parts. *)
Theorem normalize_concat (s1 s2 : string) :
  normalize_account_id (s1 +:+ s2) = normalize_account_id s1 +:+ normalize_account_id s2.
Proof.
  induction s1 as [|a s1 IH]; [done|].
  by rewrite append_cons, !normalize_cons, IH, append_assoc.
Qed.

(** X5: two identities without an underscore that normalise to the same
    name are the same identity. *)
Theorem normalize_injective_without_underscore (s1 s2 : string) :
  PyStr.has_char "_" s1 = false →
  PyStr.has_char "_" s2 = false →
  normalize_account_id s1 = normalize_account_id s2 →
  s1 = s2.
Proof. apply normalize_inj_underscore_free. Qed.

Lemma key_absolute (i rest : string) :
  PyStr.startswith "/" (normalize_account_id i +:+ String "_" rest)
  = PyStr.startswith "/" i.
Proof.
  destruct i as [|c i]; [done|]. rewrite normalize_cons.
  destruct (Ascii.eqb "@" c) eqn:Ea.
  { apply Ascii.eqb_eq in Ea as <-. done. }
  destruct (Ascii.eqb "." c) eqn:Ed.
  { apply Ascii.eqb_eq in Ed as <-. done. }
  done.
Qed.

(** X6: the token file of [get_google_api_client] is an absolute path,
    outside the token directory, exactly when the identity begins with
    [/]; when identity, api and profile contain no path separator it is
    [tokens/<key>.json]. *)
Theorem token_file_location (i a p : string) :
  PyStr.startswith "/" (token_file i a p) = PyStr.startswith "/" i
  ∧ (PyStr.has_char "/" i = false →
     PyStr.has_char "/" a = false →
     PyStr.has_char "/" p = false →
     token_file i a p = "tokens/" +:+ cache_key i a p +:+ ".json").
Proof.
  split; [|apply token_file_no_slash].
  unfold token_file, DEFAULT_TOKEN_DIR, cache_key.
  rewrite pathlib_div_tokens_absolute, !append_assoc.
  change ("__" +:+ a +:+ "__" +:+ p +:+ ".json")
    with (String "_" ("_" +:+ a +:+ "__" +:+ p +:+ ".json")).
  apply key_absolute.
Qed.

(** X7: the token file of [get_authenticated_youtube] is
    [tokens/<normalised account>.json], unless the account begins with [/]:
    then it is the absolute path [<normalised account>.json]. *)
Theorem youtube_token_file_location (account : string) :
  YoutubeAuth.token_file account
  = if PyStr.startswith "/" account
    then normalize_account_id account +:+ ".json"
    else "tokens/" +:+ normalize_account_id account +:+ ".json".
Proof.
  unfold YoutubeAuth.token_file, Posix.join.
  change (YoutubeAuth.normalize_account_id account) with (normalize_account_id account).
  assert (PyStr.startswith "/" (normalize_account_id account +:+ ".json")
          = PyStr.startswith "/" account) as ->.
  { destruct account as [|c i]; [done|]. rewrite normalize_cons.
    destruct (Ascii.eqb "@" c) eqn:Ea.
    { apply Ascii.eqb_eq in Ea as <-. done. }
    destruct (Ascii.eqb "." c) eqn:Ed.
    { apply Ascii.eqb_eq in Ed as <-. done. }
    done. }
  by destruct (PyStr.startswith "/" account).
Qed.

End NamingExtras.

(** ** Further properties of [get_google_api_client] *)

Section HelpersExtras.
Context `{Collaborators}.
Import GoogleApiHelpers.

Ltac unfold_helpers :=
  unfold get_google_api_client, load_scope_profiles, get_scopes_for,
    load_token, consent_branch, save_token, Posix.mkdir_exist_ok, Posix.open_w,
    Posix.write, DEFAULT_TOKEN_DIR.

Ltac helpers_exec :=
  repeat first
    [ wp_step
    | progress rewrite ?parent_exists_tokens, ?lookup_insert_eq
    | wp_branch ].

(** X8: when the scope table cannot be loaded, or has no entry for the api
    or for the profile under it, [get_google_api_client] raises before it
    does anything: no directory is made, no file is read or written, and
    no event occurs. *)
Theorem helpers_config_error_has_no_effect (api profile account cfgpath : string)
    (secret : option string) (s : FS) :
  (∀ cfg, yaml_safe_load cfgpath = Ok cfg → cfg !! api ≫= (.!! profile) = None) →
  let out := run (get_google_api_client api profile account secret cfgpath) s in
  (∃ e, out.1 = Raise e) ∧ out.2 = initial s.
Proof.
  intros Hcfg out. subst out.
  wp_start; unfold_helpers.
  do 2 wp_step. destruct (yaml_safe_load cfgpath) as [cfg|e] eqn:Hy.
  - specialize (Hcfg cfg eq_refl).
    destruct (cfg !! api) as [profiles|] eqn:Hc; cbn in Hcfg.
    + rewrite Hcfg. wp_step. wp_step. by eauto.
    + wp_step. wp_step. by eauto.
  - by eauto.
Qed.

(** X9: one call of [get_google_api_client] makes at most one refresh or
    one consent flow, never both, and saves at most once. *)
Theorem helpers_one_pass (api profile account cfgpath : string)
    (secret : option string) (s : FS) :
  let out := run (get_google_api_client api profile account secret cfgpath) s in
  (count_events is_refresh (trace out.2)
   + count_events is_consent_run (trace out.2) ≤ 1)%nat
  ∧ (count_events is_save (trace out.2) ≤ 1)%nat.
Proof.
  intros out. subst out.
  wp_start; unfold_helpers.
  generalize (token_file account api profile). intros tf.
  set (sec := match secret with Some p => _ | None => _ end).
  helpers_exec.
  all: cbn; lia.
Qed.


(** X10: when the cached record is expired, carries a refresh token and the
    refresh succeeds, [get_google_api_client] saves the refreshed record
    over the token file (keeping its mode) and hands it to [build]; no
    consent flow runs and the client secret is not looked at. *)
Theorem helpers_refresh_success_saves (api profile account cfgpath : string)
    (secret : option string) (cfg : ScopeConfig) (profiles : gmap string (list string))
    (requested : list string) (s : FS) (f : File) (c c' : Credentials) :
  yaml_safe_load cfgpath = Ok cfg →
  cfg !! api = Some profiles →
  profiles !! profile = Some requested →
  Posix.is_dir s "tokens" = true →
  Posix.is_dir s (token_file account api profile) = false →
  Posix.parent_exists s (token_file account api profile) = true →
  files s !! token_file account api profile = Some f →
  from_authorized_user_info (content f) requested = Ok c →
  valid c = false → expired c = true → has_refresh_token c = true →
  refresh c = Ok c' →
  let tf := token_file account api profile in
  let out := run (get_google_api_client api profile account secret cfgpath) s in
  out.1 = build api "v3" c'
  ∧ trace out.2
    = [EvMkdir "tokens"; EvLoad tf requested; EvRefresh c;
       EvLog INFO "Refreshed token"; EvOpenW tf; EvWrite tf (to_json c');
       EvLog INFO "Token saved"; EvBuild api "v3" c']
  ∧ files (fs out.2) = <[tf := mkFile (to_json c') (mode f)]> (files s).
Proof.
  intros Hy Hc Hp Ht Hd Hpar Hf Hl Hv Hx Hrt Hr tf out. subst tf out.
  wp_start; unfold_helpers.
  pose proof (λ s, path_exists_token_file s account api profile) as Htf.
  generalize dependent (token_file account api profile). intros tf Hd Hpar Hf Htf.
  pose proof (exists_of_file _ _ _ Hf) as Hex.
  assert (not_usable (Some c) = true) as Hnu by (cbn; by rewrite Hv).
  assert (wants_refresh (Some c) = true) as Hwr by (cbn; by rewrite Hx, Hrt).
  repeat first
    [ wp_step
    | progress rewrite ?Hy, ?Hc, ?Hp, ?Ht, ?Htf, ?Hex, ?Hf, ?Hl, ?Hnu, ?Hwr, ?Hr,
        ?Hd, ?Hpar, ?lookup_insert_eq
    | wp_branch ].
  by rewrite insert_insert_eq.
Qed.

(** X11: whenever [get_google_api_client] starts a consent flow, it does so
    with the resolved client secret (argument, else environment, else the
    default path), which existed when it was checked, and with the scopes
    the table gives for the api and profile; the flow runs on the local
    server, and no refresh happened in that call. *)
Theorem helpers_consent_uses_checked_secret (api profile account cfgpath : string)
    (secret : option string) (s : FS) (p : string) (req : list string) :
  let out := run (get_google_api_client api profile account secret cfgpath) s in
  EvFlowInit p req ∈ trace out.2 →
  p = resolved_client_secret secret
  ∧ (∃ cfg profiles, yaml_safe_load cfgpath = Ok cfg
                     ∧ cfg !! api = Some profiles ∧ profiles !! profile = Some req)
  ∧ (∃ s1 rest, history out.2 = s1 :: rest ∧ Posix.path_exists s1 p = true)
  ∧ (∀ console fl, EvConsent console fl ∈ trace out.2 →
       console = false ∧ from_client_secrets_file p req = Ok fl)
  ∧ count_events is_refresh (trace out.2) = 0.
Proof.
  intros out. subst out. revert p req.
  wp_start; unfold_helpers.
  generalize (token_file account api profile). intros tf.
  fold (PyStr.or_default secret
          (default "secret/client_secret.json" (getenv "GOOGLE_CLIENT_SECRET"))).
  fold (resolved_client_secret secret).
  generalize (resolved_client_secret secret). intros sec.
  helpers_exec.
  all: intros p req Hi; inv_events.
  all: split_and!; [done|by eauto|eexists _, _; split; [done|]|intros ? ? He; by inv_events|done].
  all: match goal with
       | Hn : negb ?b = false |- _ => by destruct b
       end.
Qed.

(** X12: unless [get_google_api_client] reaches the point where it opens
    the token file for writing, it changes no file: a failure of the
    token load, of the refresh, of the client-secret check or of the
    consent flow leaves every file as it was (at most the token directory
    has been made). *)
Theorem helpers_files_change_only_by_save (api profile account cfgpath : string)
    (secret : option string) (s : FS) :
  let out := run (get_google_api_client api profile account secret cfgpath) s in
  EvOpenW (token_file account api profile) ∉ trace out.2 →
  files (fs out.2) = files s
  ∧ umask (fs out.2) = umask s
  ∧ (dirs (fs out.2) = dirs s ∨ dirs (fs out.2) = {["tokens"]} ∪ dirs s).
Proof.
  intros out. subst out.
  wp_start; unfold_helpers.
  generalize (token_file account api profile). intros tf.
  set (sec := match secret with Some p => _ | None => _ end).
  helpers_exec.
  all: intros Hno.
  all: try solve [exfalso; apply Hno; elem_of_list].
  all: split_and!; [done..|first [by left | by right]].
Qed.

(** X13: the record [get_google_api_client] hands to [build] is the one in
    the token file when the call ends: either the file holds its
    serialisation, just saved, or no file was changed and the record was
    loaded from the file and is valid. *)
Theorem helpers_built_record_is_stored (api profile account cfgpath : string)
    (secret : option string) (s : FS) (a v : string) (c : Credentials) :
  let out := run (get_google_api_client api profile account secret cfgpath) s in
  EvBuild a v c ∈ trace out.2 →
  a = api ∧ v = "v3"
  ∧ ∃ f, files (fs out.2) !! token_file account api profile = Some f
         ∧ (content f = to_json c
            ∨ (files (fs out.2) = files s ∧ valid c = true
               ∧ ∃ req, from_authorized_user_info (content f) req = Ok c)).
Proof.
  intros out. subst out. revert a v c.
  wp_start; unfold_helpers.
  generalize (token_file account api profile). intros tf.
  set (sec := match secret with Some p => _ | None => _ end).
  helpers_exec.
  all: intros api0 v0 c0 Hb; inv_events.
  all: split_and!; [done..|].
  all: eexists; (split; [first [eassumption | reflexivity]|]).
  all: try (by left).
  all: right.
  all: match goal with
       | Hn : not_usable (Some _) = false |- _ => apply not_usable_false in Hn
       end.
  all: by eauto.
Qed.

End HelpersExtras.

Section HelpersExtras2.
Context `{Collaborators}.
Import GoogleApiHelpers.

Ltac unfold_helpers :=
  unfold get_google_api_client, load_scope_profiles, get_scopes_for,
    load_token, consent_branch, save_token, Posix.mkdir_exist_ok, Posix.open_w,
    Posix.write, DEFAULT_TOKEN_DIR.

(** After a call that saved, the token directory exists and the token
    file holds exactly the record handed to [build]. *)
Lemma helpers_after_save (api profile account cfgpath : string)
    (secret : option string) (s : FS) (c : Credentials) :
  let out := run (get_google_api_client api profile account secret cfgpath) s in
  EvBuild api "v3" c ∈ trace out.2 →
  EvOpenW (token_file account api profile) ∈ trace out.2 →
  Posix.is_dir (fs out.2) "tokens" = true
  ∧ ∃ m, files (fs out.2) !! token_file account api profile
         = Some (mkFile (to_json c) m).
Proof.
  intros out. subst out.
  wp_start; unfold_helpers.
  generalize (token_file account api profile). intros tf.
  set (sec := match secret with Some p => _ | None => _ end).
  repeat first
    [ wp_step
    | progress rewrite ?parent_exists_tokens, ?lookup_insert_eq
    | wp_branch ].
  all: intros Hb Ho; inv_events.
  all: split; [|by eexists].
  all: try done.
  all: unfold Posix.is_dir; cbn [dirs]; apply bool_decide_eq_true_2; set_solver.
Qed.

(** A call that finds a loadable, valid record in an existing token
    directory. *)
Lemma helpers_reuse_run (api profile account cfgpath : string)
    (secret : option string) (cfg : ScopeConfig) (profiles : gmap string (list string))
    (requested : list string) (s : FS) (f : File) (c : Credentials) :
  yaml_safe_load cfgpath = Ok cfg →
  cfg !! api = Some profiles →
  profiles !! profile = Some requested →
  Posix.is_dir s "tokens" = true →
  files s !! token_file account api profile = Some f →
  from_authorized_user_info (content f) requested = Ok c →
  valid c = true →
  let out := run (get_google_api_client api profile account secret cfgpath) s in
  out.1 = build api "v3" c
  ∧ trace out.2 = [EvMkdir "tokens"; EvLoad (token_file account api profile) requested;
                   EvBuild api "v3" c]
  ∧ fs out.2 = s.
Proof.
  intros Hy Hc Hp Ht Hf Hl Hv out. subst out.
  wp_start; unfold_helpers.
  pose proof (λ s, path_exists_token_file s account api profile) as Htf.
  generalize dependent (token_file account api profile). intros tf Hf Htf.
  pose proof (exists_of_file _ _ _ Hf) as Hex.
  assert (not_usable (Some c) = false) as Hnu by (cbn; by rewrite Hv).
  repeat first
    [ wp_step
    | progress rewrite ?Hy, ?Hc, ?Hp, ?Ht, ?Htf, ?Hex, ?Hf, ?Hl, ?Hnu
    | wp_branch ].
  done.
Qed.

(** X14: if a call of [get_google_api_client] saved a record that the
    library loads back from its serialisation and reports valid, the next
    call for the same identity, api and profile reuses it: it loads the
    record, hands it to [build] and leaves the file system as it is. *)
Theorem helpers_second_call_reuses_saved_record (api profile account cfgpath : string)
    (secret secret' : option string) (cfg : ScopeConfig)
    (profiles : gmap string (list string)) (requested : list string) (s : FS)
    (c : Credentials) :
  yaml_safe_load cfgpath = Ok cfg →
  cfg !! api = Some profiles →
  profiles !! profile = Some requested →
  from_authorized_user_info (to_json c) requested = Ok c →
  valid c = true →
  let first := run (get_google_api_client api profile account secret cfgpath) s in
  EvBuild api "v3" c ∈ trace first.2 →
  EvOpenW (token_file account api profile) ∈ trace first.2 →
  let second := run (get_google_api_client api profile account secret' cfgpath)
                  (fs first.2) in
  second.1 = build api "v3" c
  ∧ trace second.2 = [EvMkdir "tokens";
                      EvLoad (token_file account api profile) requested;
                      EvBuild api "v3" c]
  ∧ fs second.2 = fs first.2.
Proof.
  intros Hy Hc Hp Hrt Hv first Hb Ho second.
  destruct (helpers_after_save api profile account cfgpath secret s c Hb Ho)
    as (Hd & m & Hf).
  by apply (helpers_reuse_run api profile account cfgpath secret' cfg profiles
              requested (fs first.2) (mkFile (to_json c) m) c).
Qed.

End HelpersExtras2.

(** ** Further properties of [get_authenticated_youtube] *)

Section YoutubeExtras.
Context `{Collaborators}.
Import YoutubeAuth.

Ltac unfold_youtube :=
  unfold get_authenticated_youtube, load_token, consent_flow,
    Posix.mkdir_exist_ok, Posix.open_w, Posix.write, Posix.chmod.

Ltac youtube_start account scopes secret tf sec req :=
  wp_start; unfold_youtube;
  fold (youtube_requested scopes);
  generalize (youtube_requested scopes); intros req;
  generalize (PyStr.or_default secret DEFAULT_CLIENT_SECRET_FILE); intros sec;
  generalize (token_file account); intros tf.

Ltac youtube_exec :=
  repeat first
    [ wp_step
    | progress rewrite ?parent_exists_tokens, ?lookup_insert_eq
    | wp_branch ].

(** X15: with the client secret in place, [get_authenticated_youtube] hands
    a cached record to [build] unchanged, with no store write, no refresh
    and no consent flow, exactly when a record was loaded from the token
    file and the library reports it valid. *)
Theorem youtube_reuse_iff_library_valid (account : string)
    (scopes : option (list string)) (secret : option string) (headless : bool)
    (s : FS) (c : Credentials) :
  Posix.exists_ s (PyStr.or_default secret DEFAULT_CLIENT_SECRET_FILE) = true →
  Posix.is_file s "tokens" = false →
  let out := run (get_authenticated_youtube account scopes secret headless) s in
  (EvBuild "youtube" "v3" c ∈ trace out.2
   ∧ forallb quiet (trace out.2) = true
   ∧ files (fs out.2) = files s
   ∧ out.1 = build "youtube" "v3" c)
  ↔ (∃ f, files s !! token_file account = Some f
          ∧ from_authorized_user_info (content f) (youtube_requested scopes) = Ok c
          ∧ valid c = true).
Proof.
  intros Hs Ht out. subst out.
  wp_start; unfold_youtube.
  fold (youtube_requested scopes).
  generalize (youtube_requested scopes). intros req.
  generalize dependent (PyStr.or_default secret DEFAULT_CLIENT_SECRET_FILE).
  intros sec Hs.
  generalize (token_file account). intros tf.
  repeat first
    [ wp_step
    | progress (rewrite ?Hs, ?Ht, ?parent_exists_tokens, ?lookup_insert_eq; cbn [negb])
    | wp_branch ].
  all: (split; [intros (Hb & Hq & Hfiles & Hr) | intros (f' & Hf' & Hp' & Hv')]).
  all: try (by cbn in Hq).
  all: try (by inv_events).
  all: try (simplify_eq;
            match goal with
            | Hn : not_usable (Some _) = true |- _ =>
                apply not_usable_true in Hn; congruence
            end).
  all: try (unfold Posix.exists_, Posix.is_file in *; cbn [files] in *;
            match goal with
            | Hl : files _ !! _ = Some _,
              Hn : _ || match files _ !! _ with _ => _ end = false |- _ =>
                rewrite Hl, orb_true_r in Hn; done
            end).
  all: try (simplify_eq; congruence).
  all: try (inv_events;
            match goal with
            | Hn : not_usable (Some _) = false |- _ =>
                apply not_usable_false in Hn; by eauto
            end).
  all: simplify_eq;
    match goal with
    | Hl : from_authorized_user_info _ _ = Ok ?a |- _ =>
        assert (c = a) as -> by congruence
    end;
    split_and!; [elem_of_list|done..].
Qed.

(** X21: one call of [get_authenticated_youtube] makes at most one
    refresh, at most one consent flow and at most one save; a consent flow
    runs on the console exactly when [headless] is set, with the scopes
    asked for (the read-only default when none or an empty list is given)
    and the client secret that was found to exist. *)
Theorem youtube_one_pass (account : string) (scopes : option (list string))
    (secret : option string) (headless : bool) (s : FS) :
  let out := run (get_authenticated_youtube account scopes secret headless) s in
  (count_events is_refresh (trace out.2) ≤ 1)%nat
  ∧ (count_events is_consent_run (trace out.2) ≤ 1)%nat
  ∧ (count_events is_save (trace out.2) ≤ 1)%nat
  ∧ (∀ console fl, EvConsent console fl ∈ trace out.2 →
       console = headless
       ∧ from_client_secrets_file (PyStr.or_default secret DEFAULT_CLIENT_SECRET_FILE)
           (youtube_requested scopes) = Ok fl
       ∧ Posix.exists_ s (PyStr.or_default secret DEFAULT_CLIENT_SECRET_FILE) = true).
Proof.
  intros out. subst out.
  youtube_start account scopes secret tf sec req.
  youtube_exec.
  all: split_and!; [cbn; lia..|].
  all: intros console fl Hc; inv_events.
  all: split_and!; [done..|].
  all: match goal with
       | Hn : negb ?b = false |- _ => by destruct b
       end.
Qed.

(** X22: [get_authenticated_youtube] changes no file but its token file,
    loads a token only from that file and only for the requested scopes,
    and applies [chmod] only to that file, with mode 0o600. *)
Theorem youtube_touches_only_its_token_file (account : string)
    (scopes : option (list string)) (secret : option string) (headless : bool) (s : FS) :
  let out := run (get_authenticated_youtube account scopes secret headless) s in
  (∀ p, p ≠ token_file account → files (fs out.2) !! p = files s !! p)
  ∧ (∀ p req, EvLoad p req ∈ trace out.2 →
       p = token_file account ∧ req = youtube_requested scopes)
  ∧ (∀ p, EvOpenW p ∈ trace out.2 → p = token_file account)
  ∧ (∀ p m, EvChmod p m ∈ trace out.2 → p = token_file account ∧ m = 384%Z).
Proof.
  intros out. subst out.
  youtube_start account scopes secret tf sec req.
  youtube_exec.
  all: split_and!;
    [ intros p Hne; by rewrite ?lookup_insert_ne by done
    | intros p r Hl; by inv_events
    | intros p Hl; by inv_events
    | intros p m Hl; by inv_events ].
Qed.

End YoutubeExtras.

Section YoutubeExtras2.
Context `{Collaborators}.
Import YoutubeAuth.

Ltac unfold_youtube :=
  unfold get_authenticated_youtube, load_token, consent_flow,
    Posix.mkdir_exist_ok, Posix.open_w, Posix.write, Posix.chmod.

(** X19: when the refresh of an expired record succeeds and the library
    reports the refreshed record valid, [get_authenticated_youtube] runs
    no consent flow: it saves the refreshed record with mode 0o600 and
    hands it to [build]. *)
Theorem youtube_refresh_success_skips_consent (account : string)
    (scopes : option (list string)) (secret : option string) (headless : bool)
    (s : FS) (f : File) (c c' : Credentials) :
  let sec := PyStr.or_default secret DEFAULT_CLIENT_SECRET_FILE in
  let req := youtube_requested scopes in
  Posix.exists_ s sec = true →
  Posix.is_dir s "tokens" = true →
  Posix.is_dir s (token_file account) = false →
  Posix.parent_exists s (token_file account) = true →
  files s !! token_file account = Some f →
  from_authorized_user_info (content f) req = Ok c →
  valid c = false → expired c = true → has_refresh_token c = true →
  refresh c = Ok c' →
  valid c' = true →
  let out := run (get_authenticated_youtube account scopes secret headless) s in
  out.1 = build "youtube" "v3" c'
  ∧ trace out.2
    = [EvPrint sec; EvMkdir "tokens"; EvLoad (token_file account) req; EvRefresh c;
       EvLog INFO "Refreshed token"; EvOpenW (token_file account);
       EvWrite (token_file account) (to_json c'); EvChmod (token_file account) 384;
       EvBuild "youtube" "v3" c']
  ∧ files (fs out.2) = <[token_file account := mkFile (to_json c') 384]> (files s).
Proof.
  intros sec req Hs Ht Hd Hpar Hf Hl Hv Hx Hrt Hr Hv' out. subst out.
  wp_start; unfold_youtube.
  fold (youtube_requested scopes). fold req. fold sec.
  generalize dependent (token_file account). intros tf Hd Hpar Hf.
  pose proof (exists_of_file _ _ _ Hf) as Hex'.
  assert (not_usable (Some c) = true) as Hnu by (cbn; by rewrite Hv).
  assert (wants_refresh (Some c) = true) as Hwr by (cbn; by rewrite Hx, Hrt).
  clearbody sec req.
  repeat first
    [ wp_step
    | progress (rewrite ?Hs, ?Ht, ?Hex', ?Hf, ?Hl, ?Hnu, ?Hwr, ?Hr, ?Hd, ?Hpar,
                  ?Hv', ?lookup_insert_eq; cbn [negb])
    | wp_branch ].
  by rewrite !insert_insert_eq.
Qed.

(** X20: when the refresh succeeds but the library still reports the
    refreshed record invalid, [get_authenticated_youtube] discards it and
    runs the consent flow; the record the flow issues is saved and handed
    to [build]. *)
Theorem youtube_invalid_after_refresh_runs_consent (account : string)
    (scopes : option (list string)) (secret : option string) (headless : bool)
    (s : FS) (f : File) (c c' c'' : Credentials) (fl : Flow) :
  let sec := PyStr.or_default secret DEFAULT_CLIENT_SECRET_FILE in
  let req := youtube_requested scopes in
  Posix.exists_ s sec = true →
  Posix.is_dir s "tokens" = true →
  Posix.is_dir s (token_file account) = false →
  Posix.parent_exists s (token_file account) = true →
  files s !! token_file account = Some f →
  from_authorized_user_info (content f) req = Ok c →
  valid c = false → expired c = true → has_refresh_token c = true →
  refresh c = Ok c' →
  valid c' = false →
  from_client_secrets_file sec req = Ok fl →
  (if headless then run_console fl else run_local_server fl) = Ok c'' →
  let out := run (get_authenticated_youtube account scopes secret headless) s in
  out.1 = build "youtube" "v3" c''
  ∧ trace out.2
    = [EvPrint sec; EvMkdir "tokens"; EvLoad (token_file account) req; EvRefresh c;
       EvLog INFO "Refreshed token"; EvLog INFO "Starting OAuth flow";
       EvFlowInit sec req; EvConsent headless fl; EvOpenW (token_file account);
       EvWrite (token_file account) (to_json c''); EvChmod (token_file account) 384;
       EvBuild "youtube" "v3" c'']
  ∧ files (fs out.2) = <[token_file account := mkFile (to_json c'') 384]> (files s).
Proof.
  intros sec req Hs Ht Hd Hpar Hf Hl Hv Hx Hrt Hr Hv' Hfl Hflow out. subst out.
  wp_start; unfold_youtube.
  fold (youtube_requested scopes). fold req. fold sec.
  generalize dependent (token_file account). intros tf Hd Hpar Hf.
  pose proof (exists_of_file _ _ _ Hf) as Hex'.
  assert (not_usable (Some c) = true) as Hnu by (cbn; by rewrite Hv).
  assert (wants_refresh (Some c) = true) as Hwr by (cbn; by rewrite Hx, Hrt).
  clearbody sec req.
  repeat first
    [ wp_step
    | progress (rewrite ?Hs, ?Ht, ?Hex', ?Hf, ?Hl, ?Hnu, ?Hwr, ?Hr, ?Hd, ?Hpar,
                  ?Hv', ?Hfl, ?Hflow, ?lookup_insert_eq; cbn [negb])
    | wp_branch ].
  by rewrite !insert_insert_eq.
Qed.

End YoutubeExtras2.

(** ** The further properties at concrete inputs *)

Section ExtraWitnesses.
Import Demo DemoRefresh.
Import GoogleApiHelpers.

Lemma normalize_injective_without_underscore_witness :
  "alice@x.com" = "alice@x.com".
Proof.
  apply normalize_injective_without_underscore; reflexivity.
Defined.

Lemma token_file_location_witness :
  token_file "user@x.com" "gmail" "send"
  = "tokens/" +:+ cache_key "user@x.com" "gmail" "send" +:+ ".json".
Proof.
  refine (proj2 (token_file_location "user@x.com" "gmail" "send") _ _ _); reflexivity.
Defined.

Lemma helpers_config_error_has_no_effect_witness :
  let out := run (get_google_api_client "gmail" "admin" "user@x.com" None
                    CONFIG_SCOPE_PATH) fresh_fs in
  (∃ e, out.1 = Raise e) ∧ out.2 = initial fresh_fs.
Proof.
  apply (helpers_config_error_has_no_effect (H := demo)).
  intros cfg [= <-]. reflexivity.
Defined.

Lemma helpers_refresh_success_saves_witness :
  let tf := token_file "user@x.com" "gmail" "send" in
  let s := fs_with_token tf (demo_to_json expired_record) in
  let out := run (get_google_api_client (H := refreshing) "gmail" "send" "user@x.com"
                    None CONFIG_SCOPE_PATH) s in
  out.1 = Ok (mkService "gmail" "v3" (renewed expired_record)).
Proof.
  intros tf s out.
  refine (proj1 (helpers_refresh_success_saves (H := refreshing)
                   "gmail" "send" "user@x.com" CONFIG_SCOPE_PATH None demo_scopes
                   gmail_profiles [gmail_send] s
                   (mkFile (demo_to_json expired_record) 420) expired_record
                   (renewed expired_record) _ _ _ _ _ _ _ _ _ _ _ _));
    reflexivity.
Defined.

Lemma helpers_consent_uses_checked_secret_witness :
  let out := run (get_google_api_client "gmail" "send" "user@x.com" None
                    CONFIG_SCOPE_PATH) fresh_fs in
  EvFlowInit "secret/client_secret.json" [gmail_send] ∈ trace out.2
  ∧ "secret/client_secret.json" = resolved_client_secret None.
Proof.
  intros out.
  assert (EvFlowInit "secret/client_secret.json" [gmail_send] ∈ trace out.2) as Hi
    by (vm_compute; elem_of_list).
  split; [exact Hi|].
  exact (proj1 (helpers_consent_uses_checked_secret (H := demo)
                  "gmail" "send" "user@x.com" CONFIG_SCOPE_PATH None fresh_fs
                  "secret/client_secret.json" [gmail_send] Hi)).
Defined.

Lemma helpers_files_change_only_by_save_witness :
  let out := run (get_google_api_client "gmail" "send" "user@x.com" None
                    CONFIG_SCOPE_PATH) bare_fs in
  files (fs out.2) = files bare_fs.
Proof.
  intros out.
  refine (proj1 (helpers_files_change_only_by_save (H := demo)
                   "gmail" "send" "user@x.com" CONFIG_SCOPE_PATH None bare_fs _)).
  match goal with
  | |- _ ∉ ?t => assert (t = [EvMkdir "tokens"]) as -> by (vm_compute; reflexivity)
  end.
  intros Hin. inv_events.
Defined.

Lemma helpers_built_record_is_stored_witness :
  let out := run (get_google_api_client "gmail" "send" "user@x.com" None
                    CONFIG_SCOPE_PATH) fresh_fs in
  EvBuild "gmail" "v3" (issued [gmail_send]) ∈ trace out.2
  ∧ "gmail" = "gmail".
Proof.
  intros out.
  assert (EvBuild "gmail" "v3" (issued [gmail_send]) ∈ trace out.2) as Hb
    by (vm_compute; elem_of_list).
  split; [exact Hb|].
  exact (proj1 (helpers_built_record_is_stored (H := demo)
                  "gmail" "send" "user@x.com" CONFIG_SCOPE_PATH None fresh_fs
                  "gmail" "v3" (issued [gmail_send]) Hb)).
Defined.

Lemma helpers_second_call_reuses_saved_record_witness :
  let first := run (get_google_api_client "gmail" "send" "user@x.com" None
                      CONFIG_SCOPE_PATH) fresh_fs in
  let second := run (get_google_api_client "gmail" "send" "user@x.com" None
                       CONFIG_SCOPE_PATH) (fs first.2) in
  second.1 = Ok (mkService "gmail" "v3" (issued [gmail_send])).
Proof.
  intros first second.
  refine (proj1 (helpers_second_call_reuses_saved_record (H := demo)
                   "gmail" "send" "user@x.com" CONFIG_SCOPE_PATH None None demo_scopes
                   gmail_profiles [gmail_send] fresh_fs (issued [gmail_send])
                   _ _ _ _ _ _ _)); try reflexivity.
  - vm_compute. elem_of_list.
  - vm_compute. elem_of_list.
Defined.

Lemma youtube_reuse_iff_library_valid_witness :
  let tf := YoutubeAuth.token_file "user@x.com" in
  let s := fs_with_token tf (demo_to_json readonly_record) in
  let out := run (YoutubeAuth.get_authenticated_youtube "user@x.com" None None false) s in
  EvBuild "youtube" "v3" readonly_record ∈ trace out.2
  ∧ forallb quiet (trace out.2) = true
  ∧ files (fs out.2) = files s
  ∧ out.1 = Ok (mkService "youtube" "v3" readonly_record).
Proof.
  intros tf s out.
  refine (proj2 (youtube_reuse_iff_library_valid (H := demo)
                   "user@x.com" None None false s readonly_record _ _) _);
    [reflexivity..|].
  exists (mkFile (demo_to_json readonly_record) 420).
  split_and!; reflexivity.
Defined.

Lemma youtube_missing_secret_no_effects_witness :
  let out := run (YoutubeAuth.get_authenticated_youtube "user@x.com" None None false)
               bare_fs in
  out.1 = Raise (FileNotFoundError "Missing client_secret.json")
  ∧ fs out.2 = bare_fs ∧ history out.2 = []
  ∧ trace out.2 = [EvPrint "client_secret.json"].
Proof.
  apply (youtube_missing_secret_no_effects (H := demo)). reflexivity.
Defined.

Lemma youtube_corrupt_token_is_miss_witness :
  let tf := YoutubeAuth.token_file "user@x.com" in
  let s := fs_with_token tf "{ not a token" in
  let out := run (YoutubeAuth.get_authenticated_youtube "user@x.com" None None false) s in
  ∃ evs, trace out.2
         = ([EvPrint "client_secret.json"; EvMkdir "tokens";
             EvLoad tf [youtube_readonly];
             EvLog WARNING "Failed to load credentials";
             EvLog INFO "Starting OAuth flow";
             EvFlowInit "client_secret.json" [youtube_readonly]] ++ evs)%list.
Proof.
  intros tf s.
  apply (youtube_corrupt_token_is_miss (H := demo) "user@x.com" None None false s
           (mkFile "{ not a token" 420) (ValueError "malformed token file"));
    reflexivity.
Defined.

Lemma youtube_refresh_failure_falls_back_witness :
  let tf := YoutubeAuth.token_file "user@x.com" in
  let s := fs_with_token tf (demo_to_json expired_record) in
  let out := run (YoutubeAuth.get_authenticated_youtube "user@x.com" None None false) s in
  out.1 = Ok (mkService "youtube" "v3" (issued [youtube_readonly])).
Proof.
  intros tf s out.
  refine (proj1 (youtube_refresh_failure_falls_back (H := demo)
                   "user@x.com" None None false s
                   (mkFile (demo_to_json expired_record) 420) expired_record
                   (issued [youtube_readonly])
                   (mkFlow "client_secret.json" [youtube_readonly])
                   (LibraryError "invalid_grant") _ _ _ _ _ _ _ _ _ _ _ _));
    reflexivity.
Defined.

Lemma youtube_refresh_success_skips_consent_witness :
  let tf := YoutubeAuth.token_file "user@x.com" in
  let s := fs_with_token tf (demo_to_json expired_record) in
  let out := run (YoutubeAuth.get_authenticated_youtube (H := refreshing)
                    "user@x.com" None None false) s in
  out.1 = Ok (mkService "youtube" "v3" (renewed expired_record)).
Proof.
  intros tf s out.
  refine (proj1 (youtube_refresh_success_skips_consent (H := refreshing)
                   "user@x.com" None None false s
                   (mkFile (demo_to_json expired_record) 420) expired_record
                   (renewed expired_record) _ _ _ _ _ _ _ _ _ _ _));
    reflexivity.
Defined.

Lemma youtube_invalid_after_refresh_runs_consent_witness :
  let tf := YoutubeAuth.token_file "user@x.com" in
  let s := fs_with_token tf (demo_to_json expired_record) in
  let out := run (YoutubeAuth.get_authenticated_youtube (H := stale_refreshing)
                    "user@x.com" None None true) s in
  out.1 = Ok (mkService "youtube" "v3" (issued [youtube_readonly])).
Proof.
  intros tf s out.
  refine (proj1 (youtube_invalid_after_refresh_runs_consent (H := stale_refreshing)
                   "user@x.com" None None true s
                   (mkFile (demo_to_json expired_record) 420) expired_record
                   (still_stale expired_record) (issued [youtube_readonly])
                   (mkFlow "client_secret.json" [youtube_readonly])
                   _ _ _ _ _ _ _ _ _ _ _ _ _));
    reflexivity.
Defined.

End ExtraWitnesses.
